(** * ListOffsetArray: offset-encoded jagged lists and their reductions

    A shallow embedding of [ListOffsetArrayOf<T>] (ListOffsetArray.cpp) and of
    the part of the cpu-kernel interface it drives (reducers.h).

    Conventions of the embedding.
    - [int64_t] values are integers of [Z].  Signed overflow is undefined in
      C++, so the model speaks about the executions in which the arithmetic
      of the orchestration ([offsets_.length() - 1], [negaxis - 1],
      [maxcount * outlength], ...) stays in range.
    - An [IndexOf<T>] is the view [(ptr_, offset_, length_)] over a buffer.
      A kernel that fills a freshly allocated [Index64 out(n)] is a function
      returning the final contents of the buffer; the view keeps its own
      [length_], exactly as the C++ object does.
    - A C++ exception is the [Throw] case of [result]; functions that can
      throw return [result].
    - Virtual calls on the child [content_] go through the [ContentTrait]
      interface.  The kernels are declared in reducers.h but defined
      elsewhere: those whose results a property looks into are written out
      from their contracts in [Kernel], the others are fields of [Kernels]. *)

From Stdlib Require Import ZArith List String Bool Lia Permutation Sorted
  DecimalString.
Import ListNotations.
Open Scope Z_scope.

Set Implicit Arguments.
Set Warnings "-register-all".

(** ** Errors and exceptions *)

(** Modelled from the spec: [struct Error] of awkward/common.h is not part of
    the sources; section 6 describes it as "an error descriptor with a
    nullable message and an offending-index field", and [failure(str,
    identity, attempt)] in ListOffsetArray.cpp fills three fields. *)
Record Error : Type := mkError {
  str : option string;
  identity : option Z;
  attempt : option Z
}.

(** The sentinel [kSliceNone] ("no index") of the two index fields is the
    [None] of their option type. *)
Definition kSliceNone : option Z := None.

(** Modelled from the spec: [success()] is the descriptor with a null message
    (section 6, kernel ABI). *)
Definition success : Error := mkError None kSliceNone kSliceNone.

(** Modelled from the spec: [failure(str, identity, attempt)] is the
    descriptor carrying a message and the offending index. *)
Definition failure (msg : string) (identity attempt : option Z) : Error :=
  mkError (Some msg) identity attempt.

Inductive exn : Type :=
| invalid_argument (what : string)
| runtime_error (what : string)
| kernel_error (classname : string) (err : Error).

Inductive result (A : Type) : Type :=
| Ok (a : A)
| Throw (e : exn).

Arguments Ok {A} a.
Arguments Throw {A} e.

Definition bind {A B : Type} (c : result A) (k : A -> result B) : result B :=
  match c with
  | Ok a => k a
  | Throw e => Throw e
  end.

Declare Scope result_scope.
Delimit Scope result_scope with result.
Notation "x <- c ;; k" := (bind c (fun x => k))
  (at level 61, c at next level, right associativity) : result_scope.
Notation "c ;; k" := (bind c (fun _ => k))
  (at level 61, right associativity) : result_scope.
Open Scope result_scope.

(** Modelled from the spec: [util::handle_error] is not part of the sources;
    section 7 says that orchestrators convert a kernel error into the
    language's failure form and attach the originating class name.  A
    descriptor with a null message is no error. *)
Definition handle_error (err : Error) (classname : string) : result unit :=
  match str err with
  | None => Ok tt
  | Some _ => Throw (kernel_error classname err)
  end.

(** [std::to_string] on an [int64_t]. *)
Definition to_string (z : Z) : string :=
  DecimalString.NilZero.string_of_int (Z.to_int z).

(** ** Index views *)

(** The template parameter [T] of [IndexOf<T>] and [ListOffsetArrayOf<T>]. *)
Inductive IndexType : Type := int32_t | uint32_t | int64_t.

Definition IndexType_eqb (a b : IndexType) : bool :=
  match a, b with
  | int32_t, int32_t | uint32_t, uint32_t | int64_t, int64_t => true
  | _, _ => false
  end.

(** Reading [p[i]] from a buffer.  Reads outside the buffer are undefined in
    C++; the model returns 0 there and no theorem below depends on it. *)
Definition load (p : list Z) (i : Z) : Z := nth (Z.to_nat i) p 0.

(** Modelled from the spec: the [IndexOf<T>] class is not part of the
    sources; section 3 gives it as the triple (buffer, offset, length), read
    at positions [[0, length)] relative to [offset]. *)
Record Index : Type := mkIndex {
  ptr_ : list Z;
  offset_ : Z;
  length_ : Z
}.

(** [Index64 out(n)] once a kernel has written [data] into its buffer. *)
Definition Index_filled (data : list Z) (n : Z) : Index := mkIndex data 0 n.

Definition Index_getitem_at_nowrap (x : Index) (at_ : Z) : Z :=
  load (ptr_ x) (offset_ x + at_).

Definition Index_getitem_range_nowrap (x : Index) (start stop : Z) : Index :=
  mkIndex (ptr_ x) (offset_ x + start) (stop - start).

(** The elements seen through the view, in order. *)
Definition Index_elems (x : Index) : list Z :=
  map (fun i => Index_getitem_at_nowrap x (Z.of_nat i))
      (seq 0 (Z.to_nat (length_ x))).

(** ** Kernels modelled from their contracts *)

Module Kernel.

(** Modelled from the spec: [awkward_listoffsetarray_compact_offsets64] is
    only called, never defined, in the sources.  Section 4.2: input
    [offsets] of length [N+1], output of the same length with
    [out[i] = offsets[i] - offsets[0]]. *)
Definition awkward_listoffsetarray_compact_offsets64
    (fromoffsets : list Z) (offsetsoffset length : Z) : Error * list Z :=
  (success,
   map (fun i => load fromoffsets (offsetsoffset + Z.of_nat i)
                 - load fromoffsets (offsetsoffset + 0))
       (seq 0 (Z.to_nat (length + 1)))).

(** Modelled from the spec: [awkward_listoffsetarray_reduce_global_startstop_64]
    is only declared in reducers.h.  Section 4.2: "scans offsets, returns
    (offsets[0], offsets[N])". *)
Definition awkward_listoffsetarray_reduce_global_startstop_64
    (offsets : list Z) (offsetsoffset length : Z) : Error * (Z * Z) :=
  (success,
   (load offsets (offsetsoffset + 0), load offsets (offsetsoffset + length))).

(** Modelled from the spec: [awkward_listoffsetarray_reduce_local_nextparents_64]
    is only declared in reducers.h.  Section 4.3: [(offsets, N)] gives
    [nextparents] of length [offsets[N] - offsets[0]] "such that every
    element of sublist i receives parent i". *)
Definition awkward_listoffsetarray_reduce_local_nextparents_64
    (offsets : list Z) (offsetsoffset length : Z) : Error * list Z :=
  (success,
   flat_map (fun i => repeat (Z.of_nat i)
               (Z.to_nat (load offsets (offsetsoffset + Z.of_nat i + 1)
                          - load offsets (offsetsoffset + Z.of_nat i))))
            (seq 0 (Z.to_nat length))).

(** [offsets[i]] read from the buffer, by sublist number. *)
Definition offset_at (offsets : list Z) (offsetsoffset : Z) (i : nat) : Z :=
  load offsets (offsetsoffset + Z.of_nat i).

(** The number of [k] in [[0, lenparents)] with [parents[k] = j]. *)
Definition count_parent (parents : list Z) (parentsoffset lenparents j : Z) : Z :=
  Z.of_nat (List.length
    (filter (fun k => load parents (parentsoffset + Z.of_nat k) =? j)
            (seq 0 (Z.to_nat lenparents)))).

Fixpoint running_offsets (acc : Z) (counts : list Z) : list Z :=
  acc :: match counts with
         | [] => []
         | c :: rest => running_offsets (acc + c) rest
         end.

(** Modelled from the spec: [awkward_listoffsetarray_reduce_local_outoffsets_64]
    is only declared in reducers.h.  Section 4.3: [(parents, outlength)]
    gives [outoffsets] of length [outlength+1] in which
    [outoffsets[j+1] - outoffsets[j]] is the count of [parents[k] = j];
    offsets of a new list layer start at 0. *)
Definition awkward_listoffsetarray_reduce_local_outoffsets_64
    (parents : list Z) (parentsoffset lenparents outlength : Z)
    : Error * list Z :=
  (success,
   running_offsets 0
     (map (fun j => count_parent parents parentsoffset lenparents (Z.of_nat j))
          (seq 0 (Z.to_nat outlength)))).

(** First position of [v] in [l], counted from [k]; past the end if absent. *)
Fixpoint index_from (k : Z) (v : Z) (l : list Z) : Z :=
  match l with
  | [] => k
  | x :: rest => if x =? v then k else index_from (k + 1) v rest
  end.

(** Puts position [k] into a list of positions that is ordered by the
    values that [fromindex] holds there, in front of the first position
    whose value is not smaller. *)
Fixpoint insert_position (fromindex : list Z) (k : Z) (sorted : list Z)
    : list Z :=
  match sorted with
  | [] => [k]
  | j :: rest =>
      if load fromindex k <=? load fromindex j then k :: sorted
      else j :: insert_position fromindex k rest
  end.

(** Modelled from the spec: [awkward_listoffsetarray_local_preparenext_64]
    is only called, never defined, in the sources.  Section 4.7: it
    "produces an inverse permutation outcarry that reorders the sorted
    content back into original-sublist order".  [nextcarry[k]] is the
    original position of the element carried to place [k], so [outcarry]
    lists the places [0 .. length-1] by increasing original position
    (places holding the same position keep their order); when [nextcarry]
    is a permutation of [0 .. length-1] this is its inverse. *)
Definition awkward_listoffsetarray_local_preparenext_64
    (fromindex : list Z) (length : Z) : Error * list Z :=
  (success,
   fold_right (insert_position fromindex) []
              (map Z.of_nat (seq 0 (Z.to_nat length)))).

End Kernel.

(** ** The content tree and its collaborators *)

(** A [ListOffsetArrayOf<T>] object: the fields of the class, the child being
    a pointer to any content. *)
Record ListOffsetArrayOf (Identities Parameters C : Type) : Type :=
  mkListOffsetArray {
    T_ : IndexType;
    identities_ : option Identities;
    parameters_ : Parameters;
    offsets_ : Index;
    content_ : C
  }.

Section ContentTree.

Variables Identities Parameters RecordLookup Foreign : Type.

(** What a [ContentPtr] can point to: this class, the sibling classes
    that ListOffsetArray.cpp constructs ([ListArrayOf<T>], [RegularArray],
    [RecordArray]), and any other array class ([NumpyArray],
    [IndexedArray], ...), kept opaque. *)
Inductive Content : Type :=
| ForeignArray (x : Foreign)
| ListOffsetArray (a : ListOffsetArrayOf Identities Parameters Content)
| ListArray (T : IndexType) (identities : option Identities)
            (parameters : Parameters) (starts stops : Index)
            (content : Content)
| RegularArray (identities : option Identities) (parameters : Parameters)
               (content : Content) (size : Z)
| RecordArray (identities : option Identities) (parameters : Parameters)
              (contents : list Content) (recordlookup : RecordLookup).

End ContentTree.

Arguments ForeignArray {Identities Parameters RecordLookup Foreign} x.
Arguments ListOffsetArray {Identities Parameters RecordLookup Foreign} a.
Arguments ListArray {Identities Parameters RecordLookup Foreign}
  T identities parameters starts stops content.
Arguments RegularArray {Identities Parameters RecordLookup Foreign}
  identities parameters content size.
Arguments RecordArray {Identities Parameters RecordLookup Foreign}
  identities parameters contents recordlookup.

(** The types that ListOffsetArray.cpp only passes around. *)
Class Ambient : Type := {
  Identities : Type;
  Parameters : Type;
  RecordLookup : Type;
  Reducer : Type;
  Foreign : Type;
  (** [util::Parameters()], the empty parameter set *)
  no_parameters : Parameters;
  (** [Identities::getitem_range_nowrap] *)
  Identities_getitem_range_nowrap : Identities -> Z -> Z -> Identities
}.

Definition ContentPtr `{Ambient} : Type :=
  Content Identities Parameters RecordLookup Foreign.

Definition ListOffsetArrayObj `{Ambient} : Type :=
  ListOffsetArrayOf Identities Parameters ContentPtr.

(** The [Content] interface: the virtual methods that ListOffsetArray.cpp
    calls on its child and the base-class helpers it calls on itself. *)
Class ContentTrait `{Ambient} : Type := {
  content_length : ContentPtr -> Z;
  content_branch_depth : ContentPtr -> bool * Z;
  content_carry : ContentPtr -> Index -> result ContentPtr;
  content_getitem_range_nowrap : ContentPtr -> Z -> Z -> result ContentPtr;
  content_reduce_next :
    ContentPtr -> Reducer -> Z -> Index -> Index -> Z -> bool -> bool ->
    result ContentPtr;
  content_sort_next :
    ContentPtr -> Z -> Index -> Index -> Z -> bool -> bool -> bool ->
    result ContentPtr;
  content_argsort_next :
    ContentPtr -> Z -> Index -> Index -> Z -> bool -> bool -> bool ->
    result ContentPtr;
  content_offsets_and_flattened :
    ContentPtr -> Z -> Z -> result (Index * ContentPtr);
  content_combinations :
    ContentPtr -> Z -> bool -> RecordLookup -> Parameters -> Z -> Z ->
    result ContentPtr;
  (** [Content::axis_wrap_if_negative], called on [this] *)
  axis_wrap_if_negative : ContentPtr -> Z -> result Z;
  (** [Content::combinations_axis0], called on [this] *)
  combinations_axis0 :
    ContentPtr -> Z -> bool -> RecordLookup -> Parameters -> result ContentPtr
}.

(** The kernels and utilities that are declared or called but not defined in
    the sources, and whose results no property below looks into.  A kernel
    returns its error descriptor and the final contents of its output
    buffers. *)
Class Kernels : Type := {
  make_starts : Index -> Index;
  make_stops : Index -> Index;
  awkward_listarray_broadcast_tooffsets64 :
    forall (T : IndexType)
           (fromoffsets : list Z) (offsetsoffset offsetslength : Z)
           (fromstarts : list Z) (startsoffset : Z)
           (fromstops : list Z) (stopsoffset : Z) (lencontent : Z),
      Error * list Z;
  awkward_listoffsetarray_reduce_nonlocal_maxcount_offsetscopy_64 :
    forall (offsets : list Z) (offsetsoffset length : Z),
      Error * (Z * list Z);
  awkward_listoffsetarray_reduce_nonlocal_preparenext_64 :
    forall (nextlen distinctslen : Z) (offsetscopy offsets : list Z)
           (offsetsoffset length : Z) (parents : list Z)
           (parentsoffset maxcount : Z),
      Error * (list Z * list Z * Z * list Z);
  awkward_listoffsetarray_reduce_nonlocal_nextstarts_64 :
    forall (nextparents : list Z) (nextlen : Z), Error * list Z;
  awkward_listoffsetarray_reduce_nonlocal_findgaps_64 :
    forall (parents : list Z) (parentsoffset lenparents : Z), Error * list Z;
  awkward_listoffsetarray_reduce_nonlocal_outstartsstops_64 :
    forall (distincts : list Z) (lendistincts : Z) (gaps : list Z)
           (outlength : Z),
      Error * (list Z * list Z);
  awkward_listoffsetarray_flatten_offsets_64 :
    forall (T : IndexType)
           (outeroffsets : list Z) (outeroffsetsoffset outeroffsetslen : Z)
           (inneroffsets : list Z) (inneroffsetsoffset inneroffsetslen : Z),
      Error * list Z;
  awkward_listarray_combinations_length_64 :
    forall (T : IndexType) (n : Z) (replacement : bool)
           (starts : list Z) (startsoffset : Z)
           (stops : list Z) (stopsoffset : Z) (length : Z),
      Error * (Z * list Z);
  awkward_listarray_combinations_64 :
    forall (T : IndexType) (n : Z) (replacement : bool)
           (starts : list Z) (startsoffset : Z)
           (stops : list Z) (stopsoffset : Z) (length : Z),
      Error * list (list Z)
}.

(** A kernel call that reports no error and leaves [v] in its outputs. *)
Definition returns {A : Type} (call : Error * A) (v : A) : Prop :=
  str (fst call) = None /\ snd call = v.

Fixpoint mapM {A B : Type} (f : A -> result B) (l : list A) : result (list B) :=
  match l with
  | [] => Ok []
  | x :: rest => y <- f x ;; ys <- mapM f rest ;; Ok (y :: ys)
  end.

(** ** The methods of [ListOffsetArrayOf<T>] *)

Section Methods.

Context {AM : Ambient} {CT : ContentTrait} {K : Kernels}.

Implicit Types a : ListOffsetArrayObj.

(** [ListOffsetArrayOf<T>::ListOffsetArrayOf]: the constructor rejects an
    empty offsets index. *)
Definition ListOffsetArrayOf_new (T : IndexType)
    (identities : option Identities) (parameters : Parameters)
    (offsets : Index) (content : ContentPtr) : result ListOffsetArrayObj :=
  if length_ offsets =? 0 then
    Throw (invalid_argument
             "ListOffsetArray offsets length must be at least 1")
  else
    Ok (mkListOffsetArray T identities parameters offsets content).

Definition classname a : string :=
  match T_ a with
  | int32_t => "ListOffsetArray32"
  | uint32_t => "ListOffsetArrayU32"
  | int64_t => "ListOffsetArray64"
  end.

(** [ListOffsetArrayOf<T>::length] *)
Definition length a : Z := length_ (offsets_ a) - 1.

(** [ListOffsetForm::branch_depth], which answers [branch_depth()] of the
    array through its form. *)
Definition branch_depth a : bool * Z :=
  let content_depth := content_branch_depth (content_ a) in
  (fst content_depth, snd content_depth + 1).

(** [ListOffsetArrayOf<T>::shallow_copy] *)
Definition shallow_copy a : result ListOffsetArrayObj :=
  ListOffsetArrayOf_new (T_ a) (identities_ a) (parameters_ a)
                        (offsets_ a) (content_ a).

(** [ListOffsetArrayOf<T>::compact_offsets64], the specialization for
    [int64_t] and the generic template. *)
Definition compact_offsets64 a (start_at_zero : bool) : result Index :=
  match T_ a with
  | int64_t =>
      if negb start_at_zero
         || (Index_getitem_at_nowrap (offsets_ a) 0 =? 0) then
        Ok (offsets_ a)
      else
        let len := length_ (offsets_ a) - 1 in
        let '(err, out) :=
          Kernel.awkward_listoffsetarray_compact_offsets64
            (ptr_ (offsets_ a)) (offset_ (offsets_ a)) len in
        handle_error err (classname a) ;;
        Ok (Index_filled out (len + 1))
  | _ =>
      let len := length_ (offsets_ a) - 1 in
      let '(err, out) :=
        Kernel.awkward_listoffsetarray_compact_offsets64
          (ptr_ (offsets_ a)) (offset_ (offsets_ a)) len in
      handle_error err (classname a) ;;
      Ok (Index_filled out (len + 1))
  end.

(** [ListOffsetArrayOf<T>::broadcast_tooffsets64] *)
Definition broadcast_tooffsets64 a (offsets : Index)
    : result ListOffsetArrayObj :=
  if (length_ offsets =? 0)
     || negb (Index_getitem_at_nowrap offsets 0 =? 0) then
    Throw (invalid_argument
      "broadcast_tooffsets64 can only be used with offsets that start at 0")
  else if length_ offsets - 1 >? length_ (offsets_ a) - 1 then
    Throw (invalid_argument
      ("cannot broadcast ListOffsetArray of length "
       ++ to_string (length_ (offsets_ a) - 1) ++ " to length "
       ++ to_string (length_ offsets - 1)))
  else
    let starts := make_starts (offsets_ a) in
    let stops := make_stops (offsets_ a) in
    let carrylen := Index_getitem_at_nowrap offsets (length_ offsets - 1) in
    let '(err, nextcarry) :=
      awkward_listarray_broadcast_tooffsets64 (T_ a)
        (ptr_ offsets) (offset_ offsets) (length_ offsets)
        (ptr_ starts) (offset_ starts) (ptr_ stops) (offset_ stops)
        (content_length (content_ a)) in
    handle_error err (classname a) ;;
    nextcontent <- content_carry (content_ a) (Index_filled nextcarry carrylen) ;;
    let identities :=
      match identities_ a with
      | Some ids =>
          Some (Identities_getitem_range_nowrap ids 0 (length_ offsets - 1))
      | None => None
      end in
    ListOffsetArrayOf_new int64_t identities (parameters_ a)
                          offsets nextcontent.

(** [ListOffsetArrayOf<T>::toListOffsetArray64] *)
Definition toListOffsetArray64 a (start_at_zero : bool)
    : result ListOffsetArrayObj :=
  if IndexType_eqb (T_ a) int64_t
     && (negb start_at_zero
         || (Index_getitem_at_nowrap (offsets_ a) 0 =? 0)) then
    shallow_copy a
  else
    offsets <- compact_offsets64 a start_at_zero ;;
    broadcast_tooffsets64 a offsets.

(** [ListOffsetArrayOf<T>::getitem_at_nowrap] *)
Definition getitem_at_nowrap a (at_ : Z) : result ContentPtr :=
  let start := Index_getitem_at_nowrap (offsets_ a) at_ in
  let stop := Index_getitem_at_nowrap (offsets_ a) (at_ + 1) in
  let lencontent := content_length (content_ a) in
  let '(start, stop) := if start =? stop then (0, 0) else (start, stop) in
  (if start <? 0 then
     handle_error (failure "offsets[i] < 0" kSliceNone (Some at_))
                  (classname a)
   else Ok tt) ;;
  (if start >? stop then
     handle_error (failure "offsets[i] > offsets[i + 1]" kSliceNone (Some at_))
                  (classname a)
   else Ok tt) ;;
  (if stop >? lencontent then
     handle_error
       (failure
          "offsets[i] != offsets[i + 1] and offsets[i + 1] > len(content)"
          kSliceNone (Some at_))
       (classname a)
   else Ok tt) ;;
  content_getitem_range_nowrap (content_ a) start stop.

(** [ListOffsetArrayOf<T>::offsets_and_flattened] *)
Definition offsets_and_flattened a (axis depth : Z)
    : result (Index * ContentPtr) :=
  toaxis <- axis_wrap_if_negative (ListOffsetArray a) axis ;;
  if toaxis =? depth then
    Throw (invalid_argument "axis=0 not allowed for flatten")
  else if toaxis =? depth + 1 then
    raw <- toListOffsetArray64 a true ;;
    Ok (offsets_ raw, content_ raw)
  else
    pair <- content_offsets_and_flattened (content_ a) axis (depth + 1) ;;
    let inneroffsets := fst pair in
    if length_ inneroffsets =? 0 then
      out <- ListOffsetArrayOf_new (T_ a) None no_parameters
                                   (offsets_ a) (snd pair) ;;
      Ok (Index_filled [] 0, ListOffsetArray out)
    else
      let '(err, tooffsets) :=
        awkward_listoffsetarray_flatten_offsets_64 (T_ a)
          (ptr_ (offsets_ a)) (offset_ (offsets_ a)) (length_ (offsets_ a))
          (ptr_ inneroffsets) (offset_ inneroffsets)
          (length_ inneroffsets) in
      handle_error err (classname a) ;;
      out <- ListOffsetArrayOf_new int64_t None no_parameters
               (Index_filled tooffsets (length_ (offsets_ a))) (snd pair) ;;
      Ok (Index_filled [] 0, ListOffsetArray out).

(** [ListOffsetArrayOf<T>::combinations] *)
Definition combinations a (n : Z) (replacement : bool)
    (recordlookup : RecordLookup) (parameters : Parameters)
    (axis depth : Z) : result ContentPtr :=
  if n <? 1 then
    Throw (invalid_argument "in combinations, 'n' must be at least 1")
  else
    toaxis <- axis_wrap_if_negative (ListOffsetArray a) axis ;;
    if toaxis =? depth then
      combinations_axis0 (ListOffsetArray a) n replacement
                         recordlookup parameters
    else if toaxis =? depth + 1 then
      let starts := make_starts (offsets_ a) in
      let stops := make_stops (offsets_ a) in
      let '(err1, (totallen, offsets)) :=
        awkward_listarray_combinations_length_64 (T_ a) n replacement
          (ptr_ starts) (offset_ starts) (ptr_ stops) (offset_ stops)
          (length a) in
      handle_error err1 (classname a) ;;
      let '(err2, tocarry) :=
        awkward_listarray_combinations_64 (T_ a) n replacement
          (ptr_ starts) (offset_ starts) (ptr_ stops) (offset_ stops)
          (length a) in
      handle_error err2 (classname a) ;;
      contents <-
        mapM (fun j => content_carry (content_ a)
                         (mkIndex (nth j tocarry []) 0 totallen))
             (seq 0 (Z.to_nat n)) ;;
      let recordarray := RecordArray None parameters contents recordlookup in
      out <- ListOffsetArrayOf_new int64_t (identities_ a) no_parameters
               (Index_filled offsets (length a + 1)) recordarray ;;
      Ok (ListOffsetArray out)
    else
      rawcompact <- toListOffsetArray64 a true ;;
      next <- content_combinations (content_ rawcompact) n replacement
                recordlookup parameters axis (depth + 1) ;;
      out <- ListOffsetArrayOf_new int64_t (identities_ a) no_parameters
               (offsets_ rawcompact) next ;;
      Ok (ListOffsetArray out).

(** The two branches of [ListOffsetArrayOf<int64_t>::reduce_next]. *)
Definition reduce_next_nonlocal a (reducer : Reducer) (negaxis : Z)
    (starts parents : Index) (outlength : Z) (mask keepdims : bool)
    : result ContentPtr :=
  let offs := offsets_ a in
  let '(err1, (globalstart, globalstop)) :=
    Kernel.awkward_listoffsetarray_reduce_global_startstop_64
      (ptr_ offs) (offset_ offs) (length_ offs - 1) in
  handle_error err1 (classname a) ;;
  let nextlen := globalstop - globalstart in
  let '(err2, (maxcount, offsetscopy)) :=
    awkward_listoffsetarray_reduce_nonlocal_maxcount_offsetscopy_64
      (ptr_ offs) (offset_ offs) (length_ offs - 1) in
  handle_error err2 (classname a) ;;
  let '(err3, (nextcarry, nextparents, maxnextparents, distincts)) :=
    awkward_listoffsetarray_reduce_nonlocal_preparenext_64
      nextlen (maxcount * outlength) offsetscopy
      (ptr_ offs) (offset_ offs) (length_ offs - 1)
      (ptr_ parents) (offset_ parents) maxcount in
  handle_error err3 (classname a) ;;
  let '(err4, nextstarts) :=
    awkward_listoffsetarray_reduce_nonlocal_nextstarts_64
      nextparents nextlen in
  handle_error err4 (classname a) ;;
  nextcontent <- content_carry (content_ a) (Index_filled nextcarry nextlen) ;;
  outcontent <- content_reduce_next nextcontent reducer (negaxis - 1)
                  (Index_filled nextstarts (maxnextparents + 1))
                  (Index_filled nextparents nextlen)
                  (maxnextparents + 1) mask false ;;
  let '(err5, gaps) :=
    awkward_listoffsetarray_reduce_nonlocal_findgaps_64
      (ptr_ parents) (offset_ parents) (length_ parents) in
  handle_error err5 (classname a) ;;
  let '(err6, (outstarts, outstops)) :=
    awkward_listoffsetarray_reduce_nonlocal_outstartsstops_64
      distincts (maxcount * outlength) gaps outlength in
  handle_error err6 (classname a) ;;
  let out := ListArray int64_t None no_parameters
               (Index_filled outstarts outlength)
               (Index_filled outstops outlength) outcontent in
  Ok (if keepdims then RegularArray None no_parameters out 1 else out).

Definition reduce_next_local a (reducer : Reducer) (negaxis : Z)
    (starts parents : Index) (outlength : Z) (mask keepdims : bool)
    : result ContentPtr :=
  let offs := offsets_ a in
  let '(err1, (globalstart, globalstop)) :=
    Kernel.awkward_listoffsetarray_reduce_global_startstop_64
      (ptr_ offs) (offset_ offs) (length_ offs - 1) in
  handle_error err1 (classname a) ;;
  let '(err2, nextparents) :=
    Kernel.awkward_listoffsetarray_reduce_local_nextparents_64
      (ptr_ offs) (offset_ offs) (length_ offs - 1) in
  handle_error err2 (classname a) ;;
  trimmed <- content_getitem_range_nowrap (content_ a)
               globalstart globalstop ;;
  outcontent <- content_reduce_next trimmed reducer negaxis
                  (make_starts offs)
                  (Index_filled nextparents (globalstop - globalstart))
                  (length_ offs - 1) mask keepdims ;;
  let '(err3, outoffsets) :=
    Kernel.awkward_listoffsetarray_reduce_local_outoffsets_64
      (ptr_ parents) (offset_ parents) (length_ parents) outlength in
  handle_error err3 (classname a) ;;
  out <- ListOffsetArrayOf_new int64_t None no_parameters
           (Index_filled outoffsets (outlength + 1)) outcontent ;;
  Ok (ListOffsetArray out).

(** [ListOffsetArrayOf<int64_t>::reduce_next] *)
Definition reduce_next_64 a (reducer : Reducer) (negaxis : Z)
    (starts parents : Index) (outlength : Z) (mask keepdims : bool)
    : result ContentPtr :=
  let branchdepth := branch_depth a in
  if negb (fst branchdepth) && (negaxis =? snd branchdepth) then
    if negb (length_ (offsets_ a) - 1 =? length_ parents) then
      Throw (runtime_error "offsets_.length() - 1 != parents.length()")
    else
      reduce_next_nonlocal a reducer negaxis starts parents outlength
                           mask keepdims
  else
    reduce_next_local a reducer negaxis starts parents outlength
                      mask keepdims.

(** [ListOffsetArrayOf<T>::reduce_next], the generic template: the result
    of [toListOffsetArray64] is a [ListOffsetArray64], whose [reduce_next]
    is the specialization above. *)
Definition reduce_next_T a (reducer : Reducer) (negaxis : Z)
    (starts parents : Index) (length : Z) (mask keepdims : bool)
    : result ContentPtr :=
  a64 <- toListOffsetArray64 a true ;;
  reduce_next_64 a64 reducer negaxis starts parents length mask keepdims.

(** [reduce_next] as the compiler selects it from the offsets type. *)
Definition reduce_next a (reducer : Reducer) (negaxis : Z)
    (starts parents : Index) (outlength : Z) (mask keepdims : bool)
    : result ContentPtr :=
  match T_ a with
  | int64_t =>
      reduce_next_64 a reducer negaxis starts parents outlength mask keepdims
  | _ =>
      reduce_next_T a reducer negaxis starts parents outlength mask keepdims
  end.

(** The tail shared by the four branches of [sort_next] and
    [argsort_next]: with [keepdims] the list is wrapped in a
    [RegularArray] whose size is [out.get()->length()]. *)
Definition keepdims_wrap (keepdims : bool) (out : ListOffsetArrayObj)
    : ContentPtr :=
  if keepdims then
    RegularArray None no_parameters (ListOffsetArray out) (length out)
  else ListOffsetArray out.

(** The two branches of [ListOffsetArrayOf<int64_t>::sort_next]. *)
Definition sort_next_nonlocal a (negaxis : Z) (starts parents : Index)
    (outlength : Z) (ascending stable keepdims : bool)
    : result ContentPtr :=
  let offs := offsets_ a in
  let '(err1, (globalstart, globalstop)) :=
    Kernel.awkward_listoffsetarray_reduce_global_startstop_64
      (ptr_ offs) (offset_ offs) (length_ offs - 1) in
  handle_error err1 (classname a) ;;
  let nextlen := globalstop - globalstart in
  let '(err2, (maxcount, offsetscopy)) :=
    awkward_listoffsetarray_reduce_nonlocal_maxcount_offsetscopy_64
      (ptr_ offs) (offset_ offs) (length_ offs - 1) in
  handle_error err2 (classname a) ;;
  let '(err3, (nextcarry, nextparents, maxnextparents, distincts)) :=
    awkward_listoffsetarray_reduce_nonlocal_preparenext_64
      nextlen (maxcount * outlength) offsetscopy
      (ptr_ offs) (offset_ offs) (length_ offs - 1)
      (ptr_ parents) (offset_ parents) maxcount in
  handle_error err3 (classname a) ;;
  let '(err4, nextstarts) :=
    awkward_listoffsetarray_reduce_nonlocal_nextstarts_64
      nextparents nextlen in
  handle_error err4 (classname a) ;;
  nextcontent <- content_carry (content_ a) (Index_filled nextcarry nextlen) ;;
  outcontent <- content_sort_next nextcontent (negaxis - 1)
                  (Index_filled nextstarts (maxnextparents + 1))
                  (Index_filled nextparents nextlen)
                  (content_length nextcontent) ascending stable false ;;
  let '(err5, outcarry) :=
    Kernel.awkward_listoffsetarray_local_preparenext_64 nextcarry nextlen in
  handle_error err5 (classname a) ;;
  outcontent <- content_carry outcontent (Index_filled outcarry nextlen) ;;
  out <- ListOffsetArrayOf_new int64_t None no_parameters offs outcontent ;;
  Ok (keepdims_wrap keepdims out).

Definition sort_next_local a (negaxis : Z) (starts parents : Index)
    (outlength : Z) (ascending stable keepdims : bool)
    : result ContentPtr :=
  let offs := offsets_ a in
  let '(err1, (globalstart, globalstop)) :=
    Kernel.awkward_listoffsetarray_reduce_global_startstop_64
      (ptr_ offs) (offset_ offs) (length_ offs - 1) in
  handle_error err1 (classname a) ;;
  let '(err2, nextparents) :=
    Kernel.awkward_listoffsetarray_reduce_local_nextparents_64
      (ptr_ offs) (offset_ offs) (length_ offs - 1) in
  handle_error err2 (classname a) ;;
  trimmed <- content_getitem_range_nowrap (content_ a)
               globalstart globalstop ;;
  outcontent <- content_sort_next trimmed negaxis (make_starts offs)
                  (Index_filled nextparents (globalstop - globalstart))
                  (length_ offs - 1) ascending stable false ;;
  out <- ListOffsetArrayOf_new int64_t None no_parameters offs outcontent ;;
  Ok (keepdims_wrap keepdims out).

(** [ListOffsetArrayOf<int64_t>::sort_next] *)
Definition sort_next_64 a (negaxis : Z) (starts parents : Index)
    (outlength : Z) (ascending stable keepdims : bool)
    : result ContentPtr :=
  let branchdepth := branch_depth a in
  if negb (fst branchdepth) && (negaxis =? snd branchdepth) then
    if negb (length_ (offsets_ a) - 1 =? length_ parents) then
      Throw (runtime_error "offsets_.length() - 1 != parents.length()")
    else
      sort_next_nonlocal a negaxis starts parents outlength
                  ascending stable keepdims
  else
    sort_next_local a negaxis starts parents outlength ascending stable keepdims.

(** [ListOffsetArrayOf<T>::sort_next], the generic template. *)
Definition sort_next_T a (negaxis : Z) (starts parents : Index)
    (outlength : Z) (ascending stable keepdims : bool)
    : result ContentPtr :=
  a64 <- toListOffsetArray64 a true ;;
  sort_next_64 a64 negaxis starts parents outlength ascending stable keepdims.

Definition sort_next a (negaxis : Z) (starts parents : Index)
    (outlength : Z) (ascending stable keepdims : bool)
    : result ContentPtr :=
  match T_ a with
  | int64_t =>
      sort_next_64 a negaxis starts parents outlength ascending stable keepdims
  | _ =>
      sort_next_T a negaxis starts parents outlength ascending stable keepdims
  end.

(** The two branches of [ListOffsetArrayOf<int64_t>::argsort_next]. *)
Definition argsort_next_nonlocal a (negaxis : Z) (starts parents : Index)
    (outlength : Z) (ascending stable keepdims : bool)
    : result ContentPtr :=
  let offs := offsets_ a in
  let '(err1, (globalstart, globalstop)) :=
    Kernel.awkward_listoffsetarray_reduce_global_startstop_64
      (ptr_ offs) (offset_ offs) (length_ offs - 1) in
  handle_error err1 (classname a) ;;
  let nextlen := globalstop - globalstart in
  let '(err2, (maxcount, offsetscopy)) :=
    awkward_listoffsetarray_reduce_nonlocal_maxcount_offsetscopy_64
      (ptr_ offs) (offset_ offs) (length_ offs - 1) in
  handle_error err2 (classname a) ;;
  let '(err3, (nextcarry, nextparents, maxnextparents, distincts)) :=
    awkward_listoffsetarray_reduce_nonlocal_preparenext_64
      nextlen (maxcount * outlength) offsetscopy
      (ptr_ offs) (offset_ offs) (length_ offs - 1)
      (ptr_ parents) (offset_ parents) maxcount in
  handle_error err3 (classname a) ;;
  let '(err4, nextstarts) :=
    awkward_listoffsetarray_reduce_nonlocal_nextstarts_64
      nextparents nextlen in
  handle_error err4 (classname a) ;;
  nextcontent <- content_carry (content_ a) (Index_filled nextcarry nextlen) ;;
  outcontent <- content_argsort_next nextcontent (negaxis - 1)
                  (Index_filled nextstarts (maxnextparents + 1))
                  (Index_filled nextparents nextlen)
                  (maxnextparents + 1) ascending stable false ;;
  let '(err5, outcarry) :=
    Kernel.awkward_listoffsetarray_local_preparenext_64 nextcarry nextlen in
  handle_error err5 (classname a) ;;
  outcontent <- content_carry outcontent (Index_filled outcarry nextlen) ;;
  out <- ListOffsetArrayOf_new int64_t None no_parameters offs outcontent ;;
  Ok (keepdims_wrap keepdims out).

Definition argsort_next_local a (negaxis : Z) (starts parents : Index)
    (outlength : Z) (ascending stable keepdims : bool)
    : result ContentPtr :=
  let offs := offsets_ a in
  let '(err1, (globalstart, globalstop)) :=
    Kernel.awkward_listoffsetarray_reduce_global_startstop_64
      (ptr_ offs) (offset_ offs) (length_ offs - 1) in
  handle_error err1 (classname a) ;;
  let '(err2, nextparents) :=
    Kernel.awkward_listoffsetarray_reduce_local_nextparents_64
      (ptr_ offs) (offset_ offs) (length_ offs - 1) in
  handle_error err2 (classname a) ;;
  trimmed <- content_getitem_range_nowrap (content_ a)
               globalstart globalstop ;;
  outcontent <- content_argsort_next trimmed negaxis (make_starts offs)
                  (Index_filled nextparents (globalstop - globalstart))
                  (length_ offs - 1) ascending stable false ;;
  out <- ListOffsetArrayOf_new int64_t None no_parameters offs outcontent ;;
  Ok (keepdims_wrap keepdims out).

(** [ListOffsetArrayOf<int64_t>::argsort_next] *)
Definition argsort_next_64 a (negaxis : Z) (starts parents : Index)
    (outlength : Z) (ascending stable keepdims : bool)
    : result ContentPtr :=
  let branchdepth := branch_depth a in
  if negb (fst branchdepth) && (negaxis =? snd branchdepth) then
    if negb (length_ (offsets_ a) - 1 =? length_ parents) then
      Throw (runtime_error "offsets_.length() - 1 != parents.length()")
    else
      argsort_next_nonlocal a negaxis starts parents outlength
                  ascending stable keepdims
  else
    argsort_next_local a negaxis starts parents outlength ascending stable keepdims.

(** [ListOffsetArrayOf<T>::argsort_next], the generic template. *)
Definition argsort_next_T a (negaxis : Z) (starts parents : Index)
    (outlength : Z) (ascending stable keepdims : bool)
    : result ContentPtr :=
  a64 <- toListOffsetArray64 a true ;;
  argsort_next_64 a64 negaxis starts parents outlength ascending stable keepdims.

Definition argsort_next a (negaxis : Z) (starts parents : Index)
    (outlength : Z) (ascending stable keepdims : bool)
    : result ContentPtr :=
  match T_ a with
  | int64_t =>
      argsort_next_64 a negaxis starts parents outlength ascending stable keepdims
  | _ =>
      argsort_next_T a negaxis starts parents outlength ascending stable keepdims
  end.

(** Modelled from the spec: the offsets of the i64-canonical compact form.
    Section 3: "the compact form has offsets[0] = 0"; section 4.2,
    compact_offsets: an output of the same length with
    [out[i] = offsets[i] - offsets[0]]. *)
Definition canonical_compact_offsets a : Index :=
  Index_filled
    (map (fun i => Index_getitem_at_nowrap (offsets_ a) (Z.of_nat i)
                   - Index_getitem_at_nowrap (offsets_ a) 0)
         (seq 0 (Z.to_nat (length_ (offsets_ a)))))
    (length_ (offsets_ a)).

(** The orchestration rule for offsets that are not [int64_t], in the
    words of section 4.6: first convert to the i64-canonical compact form,
    then run [reduce_next] on that form with the same arguments. *)
Definition reduce_next_via_canonical_form a (reducer : Reducer)
    (negaxis : Z) (starts parents : Index) (outlength : Z)
    (mask keepdims : bool) : result ContentPtr :=
  canonical <- toListOffsetArray64 a true ;;
  reduce_next canonical reducer negaxis starts parents outlength
              mask keepdims.

End Methods.

(** ** A concrete instance: one-dimensional [int64] leaves

    The instance below makes the interfaces concrete so that the methods can
    be run: the only foreign class is a flat array of integers, the only
    reducer is the sum, and the kernels follow the contracts of section 4.4.
    It is used to evaluate the methods on literal inputs. *)

Module Example.

#[export] Instance ambient : Ambient := {
  Identities := unit;
  Parameters := unit;
  RecordLookup := unit;
  Reducer := unit;
  Foreign := list Z;
  no_parameters := tt;
  Identities_getitem_range_nowrap := fun ids _ _ => ids
}.

Definition unsupported {A : Type} : result A :=
  Throw (runtime_error "not available on this content").

(** Modelled from the spec: the sum reducer of section 4.1 on a flat
    array: every output slot starts at the identity 0 and [in[k]] is
    combined into [out[parents[k]]]. *)
Definition reduce_sum (values : list Z) (parents : Index) (outlength : Z)
    : list Z :=
  map (fun j =>
         fold_right Z.add 0
           (map (fun k => load values (Z.of_nat k))
              (filter (fun k => Index_getitem_at_nowrap parents (Z.of_nat k)
                                =? Z.of_nat j)
                      (seq 0 (Z.to_nat (length_ parents))))))
      (seq 0 (Z.to_nat outlength)).

Fixpoint insert_by (le : Z -> Z -> bool) (x : Z * Z) (l : list (Z * Z))
    : list (Z * Z) :=
  match l with
  | [] => [x]
  | y :: rest =>
      if le (fst x) (fst y) then x :: l else y :: insert_by le x rest
  end.

Definition sort_by (le : Z -> Z -> bool) (l : list (Z * Z)) : list (Z * Z) :=
  fold_right (insert_by le) [] l.

(** Modelled from the spec: the sort leaf of section 4.7: the values of
    every group of equal parent are put in order in the places of that
    group; the result pairs each value with the position it had inside
    the group. *)
Definition sort_groups (values : list Z) (parents : Index) (outlength : Z)
    (ascending : bool) : list (Z * Z) :=
  let positions := seq 0 (Z.to_nat (length_ parents)) in
  let parent k := Index_getitem_at_nowrap parents (Z.of_nat k) in
  map (fun k =>
         let group := filter (fun k' => parent k' =? parent k) positions in
         let members := map (fun k' => load values (Z.of_nat k')) group in
         let sorted :=
           sort_by (if ascending then Z.leb else Z.geb)
             (combine members (map Z.of_nat (seq 0 (List.length members)))) in
         let rank :=
           List.length (filter (fun k' => (k' <? k)%nat) group) in
         nth rank sorted (0, 0))
      positions.

#[export] Instance content_trait : ContentTrait := {
  content_length c :=
    match c with
    | ForeignArray l => Z.of_nat (List.length l)
    | ListOffsetArray a => length_ (offsets_ a) - 1
    | ListArray _ _ _ starts _ _ => length_ starts
    | _ => 0
    end;
  content_branch_depth c :=
    match c with
    | ForeignArray _ => (false, 1)
    | _ => (false, 2)
    end;
  content_carry c carry :=
    match c with
    | ForeignArray l => Ok (ForeignArray (map (load l) (Index_elems carry)))
    | _ => unsupported
    end;
  content_getitem_range_nowrap c start stop :=
    match c with
    | ForeignArray l =>
        Ok (ForeignArray (firstn (Z.to_nat (stop - start))
                                 (skipn (Z.to_nat start) l)))
    | _ => unsupported
    end;
  content_reduce_next c reducer negaxis starts parents outlength mask keepdims :=
    match c with
    | ForeignArray l => Ok (ForeignArray (reduce_sum l parents outlength))
    | _ => unsupported
    end;
  content_sort_next c negaxis starts parents outlength ascending stable keepdims :=
    match c with
    | ForeignArray l =>
        Ok (ForeignArray (map fst (sort_groups l parents outlength ascending)))
    | _ => unsupported
    end;
  content_argsort_next c negaxis starts parents outlength ascending stable keepdims :=
    match c with
    | ForeignArray l =>
        Ok (ForeignArray (map snd (sort_groups l parents outlength ascending)))
    | _ => unsupported
    end;
  content_offsets_and_flattened c axis depth := unsupported;
  content_combinations c n replacement recordlookup parameters axis depth :=
    unsupported;
  axis_wrap_if_negative c axis :=
    if axis <? 0 then unsupported else Ok axis;
  combinations_axis0 c n replacement recordlookup parameters := unsupported
}.

(** The window of a buffer as a list. *)
Definition window (p : list Z) (offset n : Z) : list Z :=
  map (fun i => load p (offset + Z.of_nat i)) (seq 0 (Z.to_nat n)).

(** Modelled from the spec: section 4.4, step 1: [maxcount] is the largest
    [offsets[i+1] - offsets[i]] and the offsets are copied. *)
Definition reduce_nonlocal_maxcount_offsetscopy_64
    (offsets : list Z) (offsetsoffset length : Z) : Error * (Z * list Z) :=
  let w := window offsets offsetsoffset (length + 1) in
  (success,
   (fold_right Z.max 0
      (map (fun i => load w (Z.of_nat i + 1) - load w (Z.of_nat i))
           (seq 0 (Z.to_nat length))),
    w)).

(** Modelled from the spec: section 4.4, step 2: elements are ordered by
    position within their sublist and then by sublist; the element at
    position [c] of a sublist of outer group [j] belongs to slot
    [j * maxcount + c], and [distincts] records for every slot a flat
    index or the sentinel [-1]. *)
Definition reduce_nonlocal_preparenext_64
    (nextlen distinctslen : Z) (offsetscopy offsets : list Z)
    (offsetsoffset length : Z) (parents : list Z)
    (parentsoffset maxcount : Z)
    : Error * (list Z * list Z * Z * list Z) :=
  let w := window offsets offsetsoffset (length + 1) in
  let entries :=
    flat_map (fun c =>
        flat_map (fun i =>
            if Z.of_nat c <? load w (Z.of_nat i + 1) - load w (Z.of_nat i)
            then [(load w (Z.of_nat i) + Z.of_nat c,
                   load parents (parentsoffset + Z.of_nat i) * maxcount
                   + Z.of_nat c)]
            else [])
          (seq 0 (Z.to_nat length)))
      (seq 0 (Z.to_nat maxcount)) in
  let nextcarry := map fst entries in
  let nextparents := map snd entries in
  let distincts :=
    map (fun slot =>
           match find (fun e => snd e =? Z.of_nat slot) entries with
           | Some e => fst e
           | None => -1
           end)
        (seq 0 (Z.to_nat distinctslen)) in
  (success, (nextcarry, nextparents, fold_right Z.max 0 nextparents, distincts)).

(** Modelled from the spec: section 4.4, step 3: [nextstarts[p]] is the
    first [k] with [nextparents[k] = p]. *)
Definition reduce_nonlocal_nextstarts_64 (nextparents : list Z) (nextlen : Z)
    : Error * list Z :=
  (success,
   map (fun p => Kernel.index_from 0 (Z.of_nat p) nextparents)
       (seq 0 (Z.to_nat (fold_right Z.max 0 nextparents + 1)))).

Fixpoint findgaps_from (last : Z) (parents : list Z) : list Z :=
  match parents with
  | [] => []
  | p :: rest =>
      if last <? p then (p - last) :: findgaps_from p rest
      else findgaps_from last rest
  end.

(** Modelled from the spec: section 4.4, step 5: from the outer [parents],
    the distance of every outer group that occurs to the previous one. *)
Definition reduce_nonlocal_findgaps_64
    (parents : list Z) (parentsoffset lenparents : Z) : Error * list Z :=
  (success, findgaps_from (-1) (window parents parentsoffset lenparents)).

(** Modelled from the spec: section 4.4, step 6: slot [(j, c)] is present
    iff [distincts[j * maxcount + c]] is not [-1], and the run of present
    slots of output [j] becomes its interval. *)
Definition reduce_nonlocal_outstartsstops_64
    (distincts : list Z) (lendistincts : Z)
    (gaps : list Z) (outlength : Z) : Error * (list Z * list Z) :=
  let maxcount := if outlength =? 0 then 0 else lendistincts / outlength in
  let present j :=
    Z.of_nat (List.length
      (filter (fun c => negb (load distincts (j * maxcount + Z.of_nat c) =? -1))
              (seq 0 (Z.to_nat maxcount)))) in
  (success,
   (map (fun j => Z.of_nat j * maxcount) (seq 0 (Z.to_nat outlength)),
    map (fun j => Z.of_nat j * maxcount + present (Z.of_nat j))
        (seq 0 (Z.to_nat outlength)))).

(** Modelled from the spec: the carry that repeats, for every target
    sublist, the positions of the source sublist; the two must have the
    same length (section 7, structural violations are reported with the
    offending index). *)
Definition listarray_broadcast_tooffsets64 (T : IndexType)
    (fromoffsets : list Z) (offsetsoffset offsetslength : Z)
    (fromstarts : list Z) (startsoffset : Z)
    (fromstops : list Z) (stopsoffset : Z) (lencontent : Z)
    : Error * list Z :=
  let rows := seq 0 (Z.to_nat (offsetslength - 1)) in
  let start i := load fromstarts (startsoffset + Z.of_nat i) in
  let stop i := load fromstops (stopsoffset + Z.of_nat i) in
  let count i := load fromoffsets (offsetsoffset + Z.of_nat i + 1)
                 - load fromoffsets (offsetsoffset + Z.of_nat i) in
  match find (fun i => negb (stop i - start i =? count i)
                       || (lencontent <? stop i)) rows with
  | Some i =>
      (failure "cannot broadcast nested list" (Some (Z.of_nat i)) kSliceNone,
       [])
  | None =>
      (success,
       flat_map (fun i => map (fun d => start i + Z.of_nat d)
                            (seq 0 (Z.to_nat (count i))))
                rows)
  end.

#[export] Instance kernels : Kernels := {
  make_starts offsets :=
    mkIndex (ptr_ offsets) (offset_ offsets) (length_ offsets - 1);
  make_stops offsets :=
    mkIndex (ptr_ offsets) (offset_ offsets + 1) (length_ offsets - 1);
  awkward_listarray_broadcast_tooffsets64 := listarray_broadcast_tooffsets64;
  awkward_listoffsetarray_reduce_nonlocal_maxcount_offsetscopy_64 :=
    reduce_nonlocal_maxcount_offsetscopy_64;
  awkward_listoffsetarray_reduce_nonlocal_preparenext_64 :=
    reduce_nonlocal_preparenext_64;
  awkward_listoffsetarray_reduce_nonlocal_nextstarts_64 :=
    reduce_nonlocal_nextstarts_64;
  awkward_listoffsetarray_reduce_nonlocal_findgaps_64 :=
    reduce_nonlocal_findgaps_64;
  awkward_listoffsetarray_reduce_nonlocal_outstartsstops_64 :=
    reduce_nonlocal_outstartsstops_64;
  awkward_listoffsetarray_flatten_offsets_64 :=
    fun T outer outeroffset outerlen inner inneroffset innerlen =>
      (success,
       map (fun i => load inner (inneroffset
                                 + load outer (outeroffset + Z.of_nat i)))
           (seq 0 (Z.to_nat outerlen)));
  awkward_listarray_combinations_length_64 :=
    fun T n replacement starts startsoffset stops stopsoffset length =>
      (failure "combinations are not part of this instance"
               kSliceNone kSliceNone, (0, []));
  awkward_listarray_combinations_64 :=
    fun T n replacement starts startsoffset stops stopsoffset length =>
      (failure "combinations are not part of this instance"
               kSliceNone kSliceNone, [])
}.

(** Literal arrays. *)
Definition index_of_list (l : list Z) : Index :=
  mkIndex l 0 (Z.of_nat (List.length l)).

Definition list_of (T : IndexType) (offsets values : list Z)
    : ListOffsetArrayObj :=
  mkListOffsetArray T None tt (index_of_list offsets) (ForeignArray values).

End Example.

(** ** Element access, slicing and local indices *)

(** A [SliceRange]: its three fields. *)
Record SliceRange : Type := mkSliceRange {
  range_start : Z;
  range_stop : Z;
  range_step : Z
}.

(** What the slicing methods of ListOffsetArray.cpp take from outside: the
    [Slice] classes, the virtual methods of the content they call, and the
    kernels of getitem.h and operations.h, which are only called here. *)
Class SliceTrait {AM : Ambient} : Type := {
  Slice : Type;
  SliceItemPtr : Type;
  (** [Slice::none()] *)
  Slice_none : Z;
  (** [tail.head()] and [tail.tail()] *)
  Slice_head : Slice -> SliceItemPtr;
  Slice_tail : Slice -> Slice;
  content_getitem_next :
    ContentPtr -> SliceItemPtr -> Slice -> Index -> result ContentPtr;
  content_localindex : ContentPtr -> Z -> Z -> result ContentPtr;
  (** [Content::localindex_axis0], called on [this] *)
  localindex_axis0 : ContentPtr -> result ContentPtr;
  (** [std::make_shared<NumpyArray>(Index64)] *)
  NumpyArray_of_Index64 : Index -> ContentPtr;
  awkward_listarray_getitem_next_range_carrylength :
    forall (T : IndexType) (fromstarts fromstops : list Z)
           (lenstarts startsoffset stopsoffset start stop step : Z),
      Error * Z;
  awkward_listarray_getitem_next_range_64 :
    forall (T : IndexType) (fromstarts fromstops : list Z)
           (lenstarts startsoffset stopsoffset start stop step : Z),
      Error * (list Z * list Z);
  awkward_listarray_getitem_next_range_counts_64 :
    forall (T : IndexType) (fromoffsets : list Z) (lenstarts : Z),
      Error * Z;
  awkward_listarray_getitem_next_range_spreadadvanced_64 :
    forall (T : IndexType) (fromadvanced fromoffsets : list Z)
           (lenstarts : Z),
      Error * list Z;
  awkward_listarray_localindex_64 :
    forall (offsets : list Z) (offsetsoffset length : Z), Error * list Z
}.

Section Access.

Context {AM : Ambient} {CT : ContentTrait} {K : Kernels} {ST : SliceTrait}.

Implicit Types a : ListOffsetArrayObj.

(** [ListOffsetArrayOf<T>::getitem_nothing] *)
Definition getitem_nothing a : result ContentPtr :=
  content_getitem_range_nowrap (content_ a) 0 0.

(** [ListOffsetArrayOf<T>::getitem_at] *)
Definition getitem_at a (at_ : Z) : result ContentPtr :=
  let regular_at := at_ in
  let regular_at :=
    if regular_at <? 0 then regular_at + (length_ (offsets_ a) - 1)
    else regular_at in
  (if negb ((0 <=? regular_at)
            && (regular_at <? length_ (offsets_ a) - 1)) then
     handle_error (failure "index out of range" kSliceNone (Some at_))
                  (classname a)
   else Ok tt) ;;
  getitem_at_nowrap a regular_at.

(** [ListOffsetArrayOf<T>::getitem_range_nowrap] *)
Definition getitem_range_nowrap a (start stop : Z)
    : result ListOffsetArrayObj :=
  let identities :=
    match identities_ a with
    | Some ids => Some (Identities_getitem_range_nowrap ids start stop)
    | None => None
    end in
  ListOffsetArrayOf_new (T_ a) identities (parameters_ a)
    (Index_getitem_range_nowrap (offsets_ a) start (stop + 1))
    (content_ a).

(** [ListOffsetArrayOf<T>::getitem_next(const SliceRange&, ...)] *)
Definition getitem_next_range a (range : SliceRange) (tail : Slice)
    (advanced : Index) : result ContentPtr :=
  let lenstarts := length_ (offsets_ a) - 1 in
  let starts := make_starts (offsets_ a) in
  let stops := make_stops (offsets_ a) in
  let nexthead := Slice_head tail in
  let nexttail := Slice_tail tail in
  let start := range_start range in
  let stop := range_stop range in
  let step := range_step range in
  let step := if step =? Slice_none then 1 else step in
  let '(err1, carrylength) :=
    awkward_listarray_getitem_next_range_carrylength (T_ a)
      (ptr_ starts) (ptr_ stops) lenstarts
      (offset_ starts) (offset_ stops) start stop step in
  handle_error err1 (classname a) ;;
  let '(err2, (nextoffsets, nextcarry)) :=
    awkward_listarray_getitem_next_range_64 (T_ a)
      (ptr_ starts) (ptr_ stops) lenstarts
      (offset_ starts) (offset_ stops) start stop step in
  handle_error err2 (classname a) ;;
  nextcontent <- content_carry (content_ a)
                   (Index_filled nextcarry carrylength) ;;
  if length_ advanced =? 0 then
    next <- content_getitem_next nextcontent nexthead nexttail advanced ;;
    out <- ListOffsetArrayOf_new (T_ a) (identities_ a) (parameters_ a)
             (Index_filled nextoffsets (lenstarts + 1)) next ;;
    Ok (ListOffsetArray out)
  else
    let '(err3, total) :=
      awkward_listarray_getitem_next_range_counts_64 (T_ a)
        nextoffsets lenstarts in
    handle_error err3 (classname a) ;;
    let '(err4, nextadvanced) :=
      awkward_listarray_getitem_next_range_spreadadvanced_64 (T_ a)
        (ptr_ advanced) nextoffsets lenstarts in
    handle_error err4 (classname a) ;;
    next <- content_getitem_next nextcontent nexthead nexttail
              (Index_filled nextadvanced total) ;;
    out <- ListOffsetArrayOf_new (T_ a) (identities_ a) (parameters_ a)
             (Index_filled nextoffsets (lenstarts + 1)) next ;;
    Ok (ListOffsetArray out).

(** [ListOffsetArrayOf<T>::localindex].  The wrapped axis [toaxis] is
    computed and the branches compare [axis]. *)
Definition localindex a (axis depth : Z) : result ContentPtr :=
  toaxis <- axis_wrap_if_negative (ListOffsetArray a) axis ;;
  if axis =? depth then
    localindex_axis0 (ListOffsetArray a)
  else if axis =? depth + 1 then
    offsets <- compact_offsets64 a true ;;
    let innerlength :=
      Index_getitem_at_nowrap offsets (length_ offsets - 1) in
    let '(err, localindex) :=
      awkward_listarray_localindex_64
        (ptr_ offsets) (offset_ offsets) (length_ offsets - 1) in
    handle_error err (classname a) ;;
    out <- ListOffsetArrayOf_new int64_t (identities_ a) no_parameters
             offsets
             (NumpyArray_of_Index64 (Index_filled localindex innerlength)) ;;
    Ok (ListOffsetArray out)
  else
    next <- content_localindex (content_ a) axis (depth + 1) ;;
    out <- ListOffsetArrayOf_new (T_ a) (identities_ a) no_parameters
             (offsets_ a) next ;;
    Ok (ListOffsetArray out).

End Access.

(** ** ListOffsetForm *)

Module Forms.

(** Modelled from the spec: the enumeration [Index::Form] is declared
    outside the sources; section 3 gives the index element types as
    i32, u32 and i64. *)
Inductive Index_Form : Type := i32 | u32 | i64.

Definition Index_Form_eqb (x y : Index_Form) : bool :=
  match x, y with
  | i32, i32 | u32, u32 | i64, i64 => true
  | _, _ => false
  end.

(** The types a form only carries. *)
Class FormAmbient : Type := {
  FormParameters : Type;
  ForeignForm : Type
}.

(** What a [FormPtr] can point to: a [ListOffsetForm] or the form of any
    other array class, kept opaque. *)
Inductive Form {FA : FormAmbient} : Type :=
| OtherForm (x : ForeignForm)
| ListOffsetForm (has_identities_ : bool) (parameters_ : FormParameters)
                 (offsets_ : Index_Form) (content_ : Form).

(** The members of the [Form] base class and of [util] that
    ListOffsetForm calls, and the virtual methods of the other forms. *)
Class FormTrait {FA : FormAmbient} : Type := {
  (** [util::parameters_equal] *)
  parameters_equal : FormParameters -> FormParameters -> bool;
  (** [Form::parameter], which reads [parameters_] *)
  parameter : FormParameters -> string -> string;
  other_has_identities : ForeignForm -> bool;
  other_parameters : ForeignForm -> FormParameters;
  other_purelist_parameter : ForeignForm -> string -> string;
  other_purelist_depth : ForeignForm -> Z;
  other_minmax_depth : ForeignForm -> Z * Z;
  other_branch_depth : ForeignForm -> bool * Z;
  other_equal : ForeignForm -> Form -> bool -> bool -> bool
}.

Section FormMethods.

Context {FA : FormAmbient} {FT : FormTrait}.

(** [Form::has_identities] and [Form::parameters] *)
Definition has_identities (f : Form) : bool :=
  match f with
  | OtherForm x => other_has_identities x
  | ListOffsetForm h _ _ _ => h
  end.

Definition parameters (f : Form) : FormParameters :=
  match f with
  | OtherForm x => other_parameters x
  | ListOffsetForm _ p _ _ => p
  end.

(** [ListOffsetForm::purelist_parameter] *)
Fixpoint purelist_parameter (f : Form) (key : string) : string :=
  match f with
  | OtherForm x => other_purelist_parameter x key
  | ListOffsetForm _ p _ content =>
      let out := parameter p key in
      if String.eqb out "null" then purelist_parameter content key
      else out
  end.

(** [ListOffsetForm::purelist_depth] *)
Fixpoint purelist_depth (f : Form) : Z :=
  match f with
  | OtherForm x => other_purelist_depth x
  | ListOffsetForm _ _ _ content => purelist_depth content + 1
  end.

(** [ListOffsetForm::minmax_depth] *)
Fixpoint minmax_depth (f : Form) : Z * Z :=
  match f with
  | OtherForm x => other_minmax_depth x
  | ListOffsetForm _ _ _ content =>
      let content_depth := minmax_depth content in
      (fst content_depth + 1, snd content_depth + 1)
  end.

(** [ListOffsetForm::branch_depth] *)
Fixpoint branch_depth (f : Form) : bool * Z :=
  match f with
  | OtherForm x => other_branch_depth x
  | ListOffsetForm _ _ _ content =>
      let content_depth := branch_depth content in
      (fst content_depth, snd content_depth + 1)
  end.

(** [ListOffsetForm::equal]; a failed [dynamic_cast] of [other] is the
    last case. *)
Fixpoint equal (f other : Form) (check_identities check_parameters : bool)
    : bool :=
  match f with
  | OtherForm x => other_equal x other check_identities check_parameters
  | ListOffsetForm h p offsets content =>
      if check_identities && negb (Bool.eqb h (has_identities other)) then
        false
      else if check_parameters
              && negb (parameters_equal p (parameters other)) then
        false
      else
        match other with
        | ListOffsetForm _ _ offsets' content' =>
            Index_Form_eqb offsets offsets'
            && equal content content' check_identities check_parameters
        | OtherForm _ => false
        end
  end.

(** The number of list layers above the first form of another class, that
    form, and the values of [parameter(key)] of the layers, outermost
    first. *)
Fixpoint nesting (f : Form) : nat :=
  match f with
  | OtherForm _ => 0%nat
  | ListOffsetForm _ _ _ content => S (nesting content)
  end.

Fixpoint innermost (f : Form) : ForeignForm :=
  match f with
  | OtherForm x => x
  | ListOffsetForm _ _ _ content => innermost content
  end.

Fixpoint layer_parameter (f : Form) (key : string) : list string :=
  match f with
  | OtherForm _ => []
  | ListOffsetForm _ p _ content =>
      parameter p key :: layer_parameter content key
  end.

End FormMethods.

End Forms.

(** ** PrimitiveType *)

Module Primitive.

(** The enumerators of [PrimitiveType::DType] that PrimitiveType.cpp
    names. *)
Inductive DType : Type :=
| boolean | int8 | int16 | int32 | int64
| uint8 | uint16 | uint32 | uint64
| float32 | float64
| numtypes.

Definition DType_eqb (x y : DType) : bool :=
  match x, y with
  | boolean, boolean | int8, int8 | int16, int16 | int32, int32
  | int64, int64 | uint8, uint8 | uint16, uint16 | uint32, uint32
  | uint64, uint64 | float32, float32 | float64, float64
  | numtypes, numtypes => true
  | _, _ => false
  end.

(** The members of the [Type] base class that PrimitiveType.cpp calls; all
    of them read the [parameters_] the constructor hands to [Type]. *)
Class TypeTrait : Type := {
  TypeParameters : Type;
  OtherType : Type;
  (** [Type::get_typestr]: the override, if there is one *)
  get_typestr : TypeParameters -> option string;
  (** [parameters_.empty()] *)
  parameters_empty : TypeParameters -> bool;
  (** [Type::string_parameters] *)
  string_parameters : TypeParameters -> string;
  (** [Type::equal_parameters] *)
  equal_parameters : TypeParameters -> TypeParameters -> bool;
  (** [Type::parameters] of a type of another class *)
  other_parameters : OtherType -> TypeParameters
}.

Section PrimitiveMethods.

Context {TT : TypeTrait}.

Local Open Scope string_scope.

Record PrimitiveType : Type := mkPrimitiveType {
  parameters_ : TypeParameters;
  dtype_ : DType
}.

Inductive TypePtr : Type :=
| Primitive (t : PrimitiveType)
| Other (x : OtherType).

(** The [switch] of [tostring_part]; its default case asserts
    [dtype_ < numtypes] and names nothing. *)
Definition dtype_name (d : DType) : option string :=
  match d with
  | boolean => Some "bool"
  | int8 => Some "int8"
  | int16 => Some "int16"
  | int32 => Some "int32"
  | int64 => Some "int64"
  | uint8 => Some "uint8"
  | uint16 => Some "uint16"
  | uint32 => Some "uint32"
  | uint64 => Some "uint64"
  | float32 => Some "float32"
  | float64 => Some "float64"
  | numtypes => None
  end.

(** [PrimitiveType::tostring_part]; [None] is the failed assertion. *)
Definition tostring_part (t : PrimitiveType) (indent pre post : string)
    : option string :=
  match get_typestr (parameters_ t) with
  | Some typestr => Some typestr
  | None =>
      match dtype_name (dtype_ t) with
      | None => None
      | Some s =>
          if parameters_empty (parameters_ t) then
            Some (indent ++ pre ++ s ++ post)
          else
            Some (indent ++ pre ++ s ++ "["
                  ++ string_parameters (parameters_ t) ++ "]" ++ post)
      end
  end.

(** [PrimitiveType::shallow_copy] *)
Definition shallow_copy (t : PrimitiveType) : PrimitiveType :=
  mkPrimitiveType (parameters_ t) (dtype_ t).

(** [PrimitiveType::equal] *)
Definition equal (t : PrimitiveType) (other : TypePtr)
    (check_parameters : bool) : bool :=
  match other with
  | Primitive t' =>
      if check_parameters
         && negb (equal_parameters (parameters_ t) (parameters_ t')) then
        false
      else DType_eqb (dtype_ t) (dtype_ t')
  | Other _ => false
  end.

(** [PrimitiveType::numfields] and the four field queries *)
Definition numfields (t : PrimitiveType) : Z := (-1)%Z.

Definition fieldindex (t : PrimitiveType) (key : string) : result Z :=
  Throw (invalid_argument "type contains no Records").

Definition key (t : PrimitiveType) (fieldindex : Z) : result string :=
  Throw (invalid_argument "type contains no Records").

Definition haskey (t : PrimitiveType) (key : string) : result bool :=
  Throw (invalid_argument "type contains no Records").

Definition keys (t : PrimitiveType) : result (list string) :=
  Throw (invalid_argument "type contains no Records").

End PrimitiveMethods.

End Primitive.

(** ** Concrete instances for the further methods

    They extend the instance of [Example] (flat [int64] leaves) so that
    slicing, local indices, flattening and combinations can be run, and
    give small instances of the form and type interfaces. *)

Module Sample.

Import Example.

(** Stand-ins for the leaf: a flat array has depth 1; a negative axis
    counts from the innermost level of a list over it. *)
Definition leaf_depth (c : ContentPtr) : Z :=
  match c with
  | ForeignArray _ => 1
  | _ => 2
  end.

Definition positions (n : nat) : list Z := map Z.of_nat (seq 0 n).

#[export] Instance content_trait : ContentTrait := {
  content_length := content_length (ContentTrait := Example.content_trait);
  content_branch_depth :=
    content_branch_depth (ContentTrait := Example.content_trait);
  content_carry := content_carry (ContentTrait := Example.content_trait);
  content_getitem_range_nowrap :=
    content_getitem_range_nowrap (ContentTrait := Example.content_trait);
  content_reduce_next :=
    content_reduce_next (ContentTrait := Example.content_trait);
  content_sort_next :=
    content_sort_next (ContentTrait := Example.content_trait);
  content_argsort_next :=
    content_argsort_next (ContentTrait := Example.content_trait);
  content_offsets_and_flattened c axis depth :=
    match c with
    | ForeignArray _ => Ok (Index_filled [] 0, c)
    | _ => unsupported
    end;
  content_combinations c n replacement recordlookup parameters axis depth :=
    unsupported;
  axis_wrap_if_negative c axis :=
    if axis <? 0 then Ok (axis + leaf_depth c) else Ok axis;
  combinations_axis0 c n replacement recordlookup parameters := unsupported
}.

(** The [n]-element combinations of a list, in lexicographic order. *)
Fixpoint choose (l : list Z) (n : nat) : list (list Z) :=
  match n, l with
  | O, _ => [[]]
  | S _, [] => []
  | S n', x :: rest => map (cons x) (choose rest n') ++ choose rest n
  end.

Definition sublist_positions (starts : list Z) (startsoffset : Z)
    (stops : list Z) (stopsoffset : Z) (i : nat) : list Z :=
  let start := load starts (startsoffset + Z.of_nat i) in
  let stop := load stops (stopsoffset + Z.of_nat i) in
  map (fun d => start + Z.of_nat d) (seq 0 (Z.to_nat (stop - start))).

(** Modelled from the spec: section 4.7, combinations: per sublist the
    [n]-element combinations without replacement, counted into offsets and
    spread over [n] carry vectors in lexicographic order.  Combinations
    with replacement are not part of this instance. *)
Definition combinations_tuples (n : Z)
    (starts : list Z) (startsoffset : Z) (stops : list Z) (stopsoffset : Z)
    (length : Z) : list (list (list Z)) :=
  map (fun i => choose (sublist_positions starts startsoffset
                                          stops stopsoffset i)
                       (Z.to_nat n))
      (seq 0 (Z.to_nat length)).

Definition listarray_combinations_length_64 (T : IndexType) (n : Z)
    (replacement : bool)
    (starts : list Z) (startsoffset : Z) (stops : list Z) (stopsoffset : Z)
    (length : Z) : Error * (Z * list Z) :=
  if replacement then
    (failure "combinations with replacement are not part of this instance"
             kSliceNone kSliceNone, (0, []))
  else
    let counts :=
      map (fun tuples => Z.of_nat (List.length tuples))
          (combinations_tuples n starts startsoffset stops stopsoffset
                               length) in
    (success, (fold_right Z.add 0 counts, Kernel.running_offsets 0 counts)).

Definition listarray_combinations_64 (T : IndexType) (n : Z)
    (replacement : bool)
    (starts : list Z) (startsoffset : Z) (stops : list Z) (stopsoffset : Z)
    (length : Z) : Error * list (list Z) :=
  if replacement then
    (failure "combinations with replacement are not part of this instance"
             kSliceNone kSliceNone, [])
  else
    let tuples :=
      List.concat (combinations_tuples n starts startsoffset stops stopsoffset
                                  length) in
    (success,
     map (fun j => map (fun tuple => nth j tuple 0) tuples)
         (seq 0 (Z.to_nat n))).

#[export] Instance kernels : Kernels := {
  make_starts := make_starts (Kernels := Example.kernels);
  make_stops := make_stops (Kernels := Example.kernels);
  awkward_listarray_broadcast_tooffsets64 :=
    awkward_listarray_broadcast_tooffsets64 (Kernels := Example.kernels);
  awkward_listoffsetarray_reduce_nonlocal_maxcount_offsetscopy_64 :=
    awkward_listoffsetarray_reduce_nonlocal_maxcount_offsetscopy_64
      (Kernels := Example.kernels);
  awkward_listoffsetarray_reduce_nonlocal_preparenext_64 :=
    awkward_listoffsetarray_reduce_nonlocal_preparenext_64
      (Kernels := Example.kernels);
  awkward_listoffsetarray_reduce_nonlocal_nextstarts_64 :=
    awkward_listoffsetarray_reduce_nonlocal_nextstarts_64
      (Kernels := Example.kernels);
  awkward_listoffsetarray_reduce_nonlocal_findgaps_64 :=
    awkward_listoffsetarray_reduce_nonlocal_findgaps_64
      (Kernels := Example.kernels);
  awkward_listoffsetarray_reduce_nonlocal_outstartsstops_64 :=
    awkward_listoffsetarray_reduce_nonlocal_outstartsstops_64
      (Kernels := Example.kernels);
  awkward_listoffsetarray_flatten_offsets_64 :=
    awkward_listoffsetarray_flatten_offsets_64 (Kernels := Example.kernels);
  awkward_listarray_combinations_length_64 :=
    listarray_combinations_length_64;
  awkward_listarray_combinations_64 := listarray_combinations_64
}.

(** A range [start:stop:step] with a positive step inside a sublist of
    [n] elements, both ends already counted from the front. *)
Definition range_positions (n start stop step : Z) : list Z :=
  let lo := Z.min (Z.max start 0) n in
  let hi := Z.min (Z.max stop lo) n in
  map (fun k => lo + Z.of_nat k * step)
      (seq 0 (Z.to_nat ((hi - lo + step - 1) / step))).

Definition range_selection (T : IndexType) (fromstarts fromstops : list Z)
    (lenstarts startsoffset stopsoffset start stop step : Z)
    : list (list Z) :=
  map (fun i =>
         let first := load fromstarts (startsoffset + Z.of_nat i) in
         let last := load fromstops (stopsoffset + Z.of_nat i) in
         map (Z.add first) (range_positions (last - first) start stop step))
      (seq 0 (Z.to_nat lenstarts)).

#[export] Instance slice_trait : SliceTrait := {
  Slice := list Z;
  SliceItemPtr := option Z;
  Slice_none := 2 ^ 63 - 1;
  Slice_head tail := hd_error tail;
  Slice_tail tail := tl tail;
  content_getitem_next c head tail advanced :=
    match head with
    | None => Ok c
    | Some _ => unsupported
    end;
  content_localindex c axis depth :=
    match c with
    | ForeignArray l => Ok (ForeignArray (positions (List.length l)))
    | _ => unsupported
    end;
  localindex_axis0 c := unsupported;
  NumpyArray_of_Index64 index := ForeignArray (Index_elems index);
  awkward_listarray_getitem_next_range_carrylength :=
    fun T fromstarts fromstops lenstarts startsoffset stopsoffset
        start stop step =>
      if step <=? 0 then
        (failure "only positive steps are part of this instance"
                 kSliceNone kSliceNone, 0)
      else
        (success,
         Z.of_nat (List.length
           (List.concat (range_selection T fromstarts fromstops lenstarts
                      startsoffset stopsoffset start stop step))));
  awkward_listarray_getitem_next_range_64 :=
    fun T fromstarts fromstops lenstarts startsoffset stopsoffset
        start stop step =>
      let selection :=
        range_selection T fromstarts fromstops lenstarts
          startsoffset stopsoffset start stop step in
      (success,
       (Kernel.running_offsets 0
          (map (fun s => Z.of_nat (List.length s)) selection),
        List.concat selection));
  awkward_listarray_getitem_next_range_counts_64 :=
    fun T fromoffsets lenstarts => (success, load fromoffsets lenstarts);
  awkward_listarray_getitem_next_range_spreadadvanced_64 :=
    fun T fromadvanced fromoffsets lenstarts =>
      (success,
       flat_map (fun i =>
           repeat (load fromadvanced (Z.of_nat i))
             (Z.to_nat (load fromoffsets (Z.of_nat i + 1)
                        - load fromoffsets (Z.of_nat i))))
         (seq 0 (Z.to_nat lenstarts)));
  awkward_listarray_localindex_64 :=
    fun offsets offsetsoffset length =>
      (success,
       flat_map (fun i =>
           positions (Z.to_nat
             (load offsets (offsetsoffset + Z.of_nat i + 1)
              - load offsets (offsetsoffset + Z.of_nat i))))
         (seq 0 (Z.to_nat length)))
}.

(** Forms: the parameters are an optional ["__array__"] value, the other
    forms are flat arrays of some dimension. *)
#[export] Instance form_ambient : Forms.FormAmbient := {
  Forms.FormParameters := option string;
  Forms.ForeignForm := Z
}.

Definition option_string_eqb (p q : option string) : bool :=
  match p, q with
  | Some u, Some v => String.eqb u v
  | None, None => true
  | _, _ => false
  end.

#[export] Instance form_trait : Forms.FormTrait := {
  Forms.parameters_equal := option_string_eqb;
  Forms.parameter p key :=
    match p with
    | Some v => if String.eqb key "__array__" then v else "null"%string
    | None => "null"%string
    end;
  Forms.other_has_identities x := false;
  Forms.other_parameters x := None;
  Forms.other_purelist_parameter x key := "null"%string;
  Forms.other_purelist_depth x := x;
  Forms.other_minmax_depth x := (x, x);
  Forms.other_branch_depth x := (false, x);
  Forms.other_equal x other check_identities check_parameters :=
    match other with
    | Forms.OtherForm y => x =? y
    | Forms.ListOffsetForm _ _ _ _ => false
    end
}.

(** Types: the parameters are a list of keys and values; the override is
    the value of ["__typestr__"]. *)
Fixpoint lookup (key : string) (p : list (string * string)) : option string :=
  match p with
  | [] => None
  | (k, v) :: rest => if String.eqb k key then Some v else lookup key rest
  end.

Fixpoint parameters_eqb (p q : list (string * string)) : bool :=
  match p, q with
  | [], [] => true
  | (k, v) :: p', (k', v') :: q' =>
      String.eqb k k' && String.eqb v v' && parameters_eqb p' q'
  | _, _ => false
  end.

#[export] Instance type_trait : Primitive.TypeTrait := {
  Primitive.TypeParameters := list (string * string);
  Primitive.OtherType := unit;
  Primitive.get_typestr p := lookup "__typestr__" p;
  Primitive.parameters_empty p :=
    match p with [] => true | _ => false end;
  Primitive.string_parameters p :=
    String.concat ", "
      (map (fun kv => (fst kv ++ ": " ++ snd kv)%string) p);
  Primitive.equal_parameters := parameters_eqb;
  Primitive.other_parameters x := []
}.

End Sample.

(** * Properties *)

Unset Implicit Arguments.

Lemma handle_error_success cls : handle_error success cls = Ok tt.
Proof. reflexivity. Qed.

Lemma bind_Ok_inv {A B : Type} (c : result A) (k : A -> result B) (b : B) :
  bind c k = Ok b -> exists a, c = Ok a /\ k a = Ok b.
Proof.
  destruct c as [a | e]; simpl; intros H; [exists a; auto | discriminate].
Qed.

Lemma load_map_seq (f : nat -> Z) (n i : Z) :
  0 <= i < n -> load (map f (seq 0 (Z.to_nat n))) i = f (Z.to_nat i).
Proof.
  intros Hi. unfold load.
  rewrite (nth_indep _ 0 (f 0%nat)) by (rewrite length_map, length_seq; lia).
  rewrite (map_nth f (seq 0 (Z.to_nat n)) 0%nat (Z.to_nat i)).
  rewrite seq_nth by lia. reflexivity.
Qed.

(** ** Contracts of the modelled kernels *)

Section KernelContracts.

Import Kernel.

Lemma running_offsets_length (counts : list Z) (acc : Z) :
  List.length (running_offsets acc counts) = S (List.length counts).
Proof.
  revert acc. induction counts as [| c rest IH]; intros acc; simpl.
  - reflexivity.
  - rewrite IH. reflexivity.
Qed.

Lemma running_offsets_step (counts : list Z) :
  forall (acc : Z) (j : nat),
    (j < List.length counts)%nat ->
    nth (S j) (running_offsets acc counts) 0
    - nth j (running_offsets acc counts) 0
    = nth j counts 0.
Proof.
  induction counts as [| c rest IH]; intros acc j Hj; simpl in Hj.
  - lia.
  - destruct j as [| j].
    + simpl. destruct rest; simpl; lia.
    + change (running_offsets acc (c :: rest))
        with (acc :: running_offsets (acc + c) rest).
      cbn [nth]. apply IH. lia.
Qed.

(** The differences of consecutive [outoffsets] are the group sizes. *)
Lemma local_outoffsets_differences
    (parents : list Z) (parentsoffset lenparents outlength j : Z) :
  0 <= j < outlength ->
  let outoffsets :=
    snd (awkward_listoffsetarray_reduce_local_outoffsets_64
           parents parentsoffset lenparents outlength) in
  load outoffsets (j + 1) - load outoffsets j
  = count_parent parents parentsoffset lenparents j.
Proof.
  intros Hj. cbn [snd awkward_listoffsetarray_reduce_local_outoffsets_64].
  unfold load.
  replace (Z.to_nat (j + 1)) with (S (Z.to_nat j)) by lia.
  rewrite running_offsets_step by (rewrite length_map, length_seq; lia).
  fold (load (map (fun j0 : nat =>
                count_parent parents parentsoffset lenparents (Z.of_nat j0))
             (seq 0 (Z.to_nat outlength))) j).
  rewrite load_map_seq by lia.
  rewrite Z2Nat.id by lia. reflexivity.
Qed.

Lemma offset_at_monotone (offsets : list Z) (o : Z) (s n : nat) :
  (forall i, (s <= i < s + n)%nat ->
     offset_at offsets o i <= offset_at offsets o (S i)) ->
  forall i, (s <= i <= s + n)%nat ->
    offset_at offsets o s <= offset_at offsets o i.
Proof.
  intros Hmono i Hi.
  induction i as [| i IH].
  - replace s with 0%nat by lia. lia.
  - destruct (Nat.eq_dec s (S i)) as [-> | Hne]; [lia |].
    specialize (Hmono i ltac:(lia)).
    specialize (IH ltac:(lia)). lia.
Qed.

Lemma nextparents_from (offsets : list Z) (o : Z) (n : nat) :
  forall (s : nat),
    (forall i, (s <= i < s + n)%nat ->
       offset_at offsets o i <= offset_at offsets o (S i)) ->
    forall (i : nat) (p : Z),
      (s <= i < s + n)%nat ->
      offset_at offsets o i <= p < offset_at offsets o (S i) ->
      nth (Z.to_nat (p - offset_at offsets o s))
          (flat_map (fun i => repeat (Z.of_nat i)
                       (Z.to_nat (offset_at offsets o (S i)
                                  - offset_at offsets o i)))
                    (seq s n)) 0
      = Z.of_nat i.
Proof.
  induction n as [| n IH]; intros s Hmono i p Hi Hp; [lia |].
  cbn [seq flat_map].
  destruct (Nat.eq_dec i s) as [-> | Hne].
  - rewrite app_nth1 by (rewrite repeat_length; lia).
    apply nth_repeat_lt. lia.
  - assert (Hstep : offset_at offsets o s <= offset_at offsets o (S s))
      by (apply Hmono; lia).
    assert (Hchain : offset_at offsets o (S s) <= offset_at offsets o i).
    { apply (offset_at_monotone offsets o (S s) n); [| lia].
      intros k Hk. apply Hmono. lia. }
    rewrite app_nth2 by (rewrite repeat_length; lia).
    rewrite repeat_length.
    replace (Z.to_nat (p - offset_at offsets o s)
             - Z.to_nat (offset_at offsets o (S s) - offset_at offsets o s))%nat
      with (Z.to_nat (p - offset_at offsets o (S s))) by lia.
    apply IH; [intros k Hk; apply Hmono; lia | lia | exact Hp].
Qed.

(** Every element of sublist [i] receives parent [i]. *)
Lemma local_nextparents_parent
    (offsets : list Z) (offsetsoffset length i p : Z) :
  (forall k, 0 <= k < length ->
     load offsets (offsetsoffset + k) <= load offsets (offsetsoffset + (k + 1))) ->
  0 <= i < length ->
  load offsets (offsetsoffset + i) <= p < load offsets (offsetsoffset + (i + 1)) ->
  load (snd (awkward_listoffsetarray_reduce_local_nextparents_64
               offsets offsetsoffset length))
       (p - load offsets (offsetsoffset + 0))
  = i.
Proof.
  intros Hmono Hi Hp.
  cbn [snd awkward_listoffsetarray_reduce_local_nextparents_64].
  unfold load at 1.
  assert (Hfun :
    flat_map (fun i0 : nat => repeat (Z.of_nat i0)
                (Z.to_nat (load offsets (offsetsoffset + Z.of_nat i0 + 1)
                           - load offsets (offsetsoffset + Z.of_nat i0))))
             (seq 0 (Z.to_nat length))
    = flat_map (fun i0 : nat => repeat (Z.of_nat i0)
                  (Z.to_nat (offset_at offsets offsetsoffset (S i0)
                             - offset_at offsets offsetsoffset i0)))
               (seq 0 (Z.to_nat length))).
  { apply flat_map_ext. intros k. unfold offset_at.
    replace (offsetsoffset + Z.of_nat (S k))
      with (offsetsoffset + Z.of_nat k + 1) by lia.
    reflexivity. }
  rewrite Hfun.
  change (load offsets (offsetsoffset + 0))
    with (offset_at offsets offsetsoffset 0).
  assert (Hat : forall k : Z, 0 <= k ->
    load offsets (offsetsoffset + k)
    = offset_at offsets offsetsoffset (Z.to_nat k)).
  { intros k Hk. unfold offset_at. rewrite Z2Nat.id by lia. reflexivity. }
  rewrite (fun Hm => nextparents_from offsets offsetsoffset
                       (Z.to_nat length) 0%nat Hm (Z.to_nat i) p).
  - lia.
  - intros k Hk. unfold offset_at.
    specialize (Hmono (Z.of_nat k) ltac:(lia)).
    replace (offsetsoffset + Z.of_nat (S k))
      with (offsetsoffset + (Z.of_nat k + 1)) by lia.
    exact Hmono.
  - lia.
  - rewrite <- Hat by lia.
    replace (S (Z.to_nat i)) with (Z.to_nat (i + 1)) by lia.
    rewrite <- Hat by lia. exact Hp.
Qed.







End KernelContracts.

Section Properties.

Context {AM : Ambient} {CT : ContentTrait} {K : Kernels}.

Implicit Types a : ListOffsetArrayObj.

(** ** Construction and length *)

(** C9: the constructor rejects an offsets index of length 0 with an
    invalid-argument error whose message asks for a length of at least 1,
    and it accepts every other length, a negative one included.  A
    constructed array has [length() = offsets.length - 1] and
    [offsets.length <> 0]; it has [offsets.length >= 1] exactly when the
    index handed to the constructor has a length that is not negative. *)
Theorem constructor_rejects_only_length_zero
    (T : IndexType) (identities : option Identities)
    (parameters : Parameters) (offsets : Index) (content : ContentPtr) :
  (length_ offsets = 0 ->
     ListOffsetArrayOf_new T identities parameters offsets content
     = Throw (invalid_argument
                "ListOffsetArray offsets length must be at least 1")) /\
  (length_ offsets <> 0 ->
     ListOffsetArrayOf_new T identities parameters offsets content
     = Ok (mkListOffsetArray T identities parameters offsets content)) /\
  (forall a,
     ListOffsetArrayOf_new T identities parameters offsets content = Ok a ->
     offsets_ a = offsets /\
     length_ (offsets_ a) <> 0 /\
     length a = length_ (offsets_ a) - 1 /\
     (1 <= length_ (offsets_ a) <-> 0 <= length_ offsets)) /\
  (length_ offsets < 0 ->
     exists a,
       ListOffsetArrayOf_new T identities parameters offsets content = Ok a /\
       length_ (offsets_ a) < 1 /\
       length a < -1).
Proof.
  unfold ListOffsetArrayOf_new, length.
  destruct (Z.eqb_spec (length_ offsets) 0) as [Hz | Hnz].
  - split; [reflexivity |]. split; [intros; contradiction |].
    split; [discriminate | lia].
  - split; [intros; contradiction |]. split; [reflexivity |]. split.
    + intros a Ha. injection Ha as <-. cbn [offsets_].
      split; [reflexivity |]. split; [exact Hnz |].
      split; [reflexivity | lia].
    + intros Hneg. eexists. split; [reflexivity |]. cbn [offsets_]. lia.
Qed.

(** ** Retrieving one sublist *)

(** C10 (as amended): when [offsets[i] = offsets[i+1]] the sublist is
    normalized to the range [0, 0) before any check, whatever the shared
    offset is, negative or beyond the content included.  The checks then
    run on [0, 0): over a content whose length is not negative none of
    them fires and [getitem_at_nowrap(i)] is the content's empty range
    [0, 0); over a content of negative length the last check,
    [stop > content.length], fires with the index [i]. *)
Theorem getitem_at_nowrap_empty_sublist a (i : Z) :
  Index_getitem_at_nowrap (offsets_ a) i
  = Index_getitem_at_nowrap (offsets_ a) (i + 1) ->
  (0 <= content_length (content_ a) ->
   getitem_at_nowrap a i = content_getitem_range_nowrap (content_ a) 0 0) /\
  (content_length (content_ a) < 0 ->
   getitem_at_nowrap a i
   = Throw (kernel_error (classname a)
              (failure
                 "offsets[i] != offsets[i + 1] and offsets[i + 1] > len(content)"
                 kSliceNone (Some i)))).
Proof.
  intros Heq. unfold getitem_at_nowrap.
  rewrite Heq, Z.eqb_refl. cbn [handle_error failure str bind Z.ltb Z.gtb
                                 Z.compare].
  destruct (Z.gtb_spec 0 (content_length (content_ a))) as [Hneg | Hpos].
  - split; [lia | reflexivity].
  - split; [reflexivity | lia].
Qed.

(** C7 (as amended): for a sublist that is not empty
    ([offsets[i] <> offsets[i+1]]), [getitem_at_nowrap(i)] fails with the
    offending index [i] when [offsets[i] < 0], when
    [offsets[i] > offsets[i+1]] or when [offsets[i+1] > content.length],
    and otherwise it is the content range [offsets[i], offsets[i+1]).  An
    empty sublist is normalized to [0, 0) before the checks, of which only
    the last can then fire: it is the content range [0, 0) when
    [content.length] is not negative, and the failure of the last check
    otherwise. *)
Theorem getitem_at_nowrap_checks a (i : Z) :
  let start := Index_getitem_at_nowrap (offsets_ a) i in
  let stop := Index_getitem_at_nowrap (offsets_ a) (i + 1) in
  let lencontent := content_length (content_ a) in
  (start <> stop ->
   start < 0 \/ start > stop \/ stop > lencontent ->
   exists err,
     getitem_at_nowrap a i = Throw (kernel_error (classname a) err) /\
     str err <> None /\ attempt err = Some i) /\
  (start <> stop -> start < 0 ->
   getitem_at_nowrap a i
   = Throw (kernel_error (classname a)
              (failure "offsets[i] < 0" kSliceNone (Some i)))) /\
  (start <> stop -> 0 <= start -> start > stop ->
   getitem_at_nowrap a i
   = Throw (kernel_error (classname a)
              (failure "offsets[i] > offsets[i + 1]" kSliceNone (Some i)))) /\
  (start <> stop -> 0 <= start -> start <= stop -> stop > lencontent ->
   getitem_at_nowrap a i
   = Throw (kernel_error (classname a)
              (failure
                 "offsets[i] != offsets[i + 1] and offsets[i + 1] > len(content)"
                 kSliceNone (Some i)))) /\
  (start <> stop -> 0 <= start -> start <= stop -> stop <= lencontent ->
   getitem_at_nowrap a i
   = content_getitem_range_nowrap (content_ a) start stop) /\
  (start = stop -> 0 <= lencontent ->
   getitem_at_nowrap a i = content_getitem_range_nowrap (content_ a) 0 0) /\
  (start = stop -> lencontent < 0 ->
   getitem_at_nowrap a i
   = Throw (kernel_error (classname a)
              (failure
                 "offsets[i] != offsets[i + 1] and offsets[i + 1] > len(content)"
                 kSliceNone (Some i)))).
Proof.
  intros start stop lencontent.
  assert (Hneg : start <> stop -> start < 0 ->
    getitem_at_nowrap a i
    = Throw (kernel_error (classname a)
               (failure "offsets[i] < 0" kSliceNone (Some i)))).
  { intros Hne Hlt. unfold getitem_at_nowrap. fold start stop.
    destruct (Z.eqb_spec start stop); [contradiction |].
    destruct (Z.ltb_spec start 0); [reflexivity | lia]. }
  assert (Hgt : start <> stop -> 0 <= start -> start > stop ->
    getitem_at_nowrap a i
    = Throw (kernel_error (classname a)
               (failure "offsets[i] > offsets[i + 1]" kSliceNone (Some i)))).
  { intros Hne H0 Hdesc. unfold getitem_at_nowrap. fold start stop.
    destruct (Z.eqb_spec start stop); [contradiction |].
    destruct (Z.ltb_spec start 0); [lia |]. simpl.
    destruct (Z.gtb_spec start stop); [reflexivity | lia]. }
  assert (Hbig : start <> stop -> 0 <= start -> start <= stop ->
    stop > lencontent ->
    getitem_at_nowrap a i
    = Throw (kernel_error (classname a)
               (failure
                  "offsets[i] != offsets[i + 1] and offsets[i + 1] > len(content)"
                  kSliceNone (Some i)))).
  { intros Hne H0 Hle Hover. unfold getitem_at_nowrap.
    fold start stop lencontent.
    destruct (Z.eqb_spec start stop); [contradiction |].
    destruct (Z.ltb_spec start 0); [lia |]. simpl.
    destruct (Z.gtb_spec start stop); [lia |]. simpl.
    destruct (Z.gtb_spec stop lencontent); [reflexivity | lia]. }
  split; [| split; [exact Hneg | split; [exact Hgt | split;
           [exact Hbig | split; [| split]]]]].
  - intros Hne Hbad.
    destruct (Z_lt_le_dec start 0) as [Hlt | Hge].
    { eexists; split; [apply Hneg; assumption |].
      split; [discriminate | reflexivity]. }
    destruct (Z_lt_le_dec stop start) as [Hlt' | Hge'].
    { eexists; split; [apply Hgt; [assumption | lia | lia] |].
      split; [discriminate | reflexivity]. }
    eexists; split; [apply Hbig; [assumption | lia | lia | lia] |].
    split; [discriminate | reflexivity].
  - intros Hne H0 Hle Hfit. unfold getitem_at_nowrap.
    fold start stop lencontent.
    destruct (Z.eqb_spec start stop); [contradiction |].
    destruct (Z.ltb_spec start 0); [lia |]. simpl.
    destruct (Z.gtb_spec start stop); [lia |]. simpl.
    destruct (Z.gtb_spec stop lencontent); [lia | reflexivity].
  - intros Heq Hlen. unfold getitem_at_nowrap.
    fold start stop lencontent.
    rewrite Heq, Z.eqb_refl. simpl.
    destruct (Z.gtb_spec 0 lencontent); [lia | reflexivity].
  - intros Heq Hlen. unfold getitem_at_nowrap.
    fold start stop lencontent.
    rewrite Heq, Z.eqb_refl. simpl.
    destruct (Z.gtb_spec 0 lencontent); [reflexivity | lia].
Qed.

(** ** Argument checks *)

(** C8: argument misuse is rejected at the entry, with a message and
    without a result, whatever the kernels and the content would do:
    [combinations] with [n < 1]; [broadcast_tooffsets64] with an offsets
    index that is empty or does not start at 0; [offsets_and_flattened]
    when the requested axis is the current depth. *)
Theorem argument_misuse_rejected a :
  (forall n replacement recordlookup parameters axis depth,
     n < 1 ->
     combinations a n replacement recordlookup parameters axis depth
     = Throw (invalid_argument "in combinations, 'n' must be at least 1")) /\
  (forall offsets,
     length_ offsets = 0 \/ Index_getitem_at_nowrap offsets 0 <> 0 ->
     broadcast_tooffsets64 a offsets
     = Throw (invalid_argument
         "broadcast_tooffsets64 can only be used with offsets that start at 0")) /\
  (forall axis depth,
     axis_wrap_if_negative (ListOffsetArray a) axis = Ok depth ->
     offsets_and_flattened a axis depth
     = Throw (invalid_argument "axis=0 not allowed for flatten")).
Proof.
  repeat split.
  - intros n replacement recordlookup parameters axis depth Hn.
    unfold combinations.
    destruct (Z.ltb_spec n 1); [reflexivity | lia].
  - intros offsets Hbad. unfold broadcast_tooffsets64.
    destruct (Z.eqb_spec (length_ offsets) 0) as [Hz | Hnz]; [reflexivity |].
    destruct (Z.eqb_spec (Index_getitem_at_nowrap offsets 0) 0) as [Hs | Hs];
      [| reflexivity].
    destruct Hbad; contradiction.
  - intros axis depth Hwrap. unfold offsets_and_flattened.
    rewrite Hwrap. simpl. rewrite Z.eqb_refl. reflexivity.
Qed.

(** ** The length check of the non-local branch *)

(** C3: in the non-local branch of a [ListOffsetArray64] (the content does
    not branch and [negaxis] is the branch depth) [reduce_next],
    [sort_next] and [argsort_next] throw the runtime error of the
    invariant when [offsets.length - 1] differs from [parents.length];
    when the two are equal the check lets each of them through to the
    body of its non-local branch. *)
Theorem nonlocal_parents_length_check a (reducer : Reducer) (negaxis : Z)
    (starts parents : Index) (outlength : Z)
    (mask ascending stable keepdims : bool) :
  T_ a = int64_t ->
  fst (branch_depth a) = false ->
  negaxis = snd (branch_depth a) ->
  (length_ (offsets_ a) - 1 <> length_ parents ->
     reduce_next a reducer negaxis starts parents outlength mask keepdims
     = Throw (runtime_error "offsets_.length() - 1 != parents.length()") /\
     sort_next a negaxis starts parents outlength ascending stable keepdims
     = Throw (runtime_error "offsets_.length() - 1 != parents.length()") /\
     argsort_next a negaxis starts parents outlength ascending stable keepdims
     = Throw (runtime_error "offsets_.length() - 1 != parents.length()")) /\
  (length_ (offsets_ a) - 1 = length_ parents ->
     reduce_next a reducer negaxis starts parents outlength mask keepdims
     = reduce_next_nonlocal a reducer negaxis starts parents outlength
                            mask keepdims /\
     sort_next a negaxis starts parents outlength ascending stable keepdims
     = sort_next_nonlocal a negaxis starts parents outlength
                          ascending stable keepdims /\
     argsort_next a negaxis starts parents outlength ascending stable keepdims
     = argsort_next_nonlocal a negaxis starts parents outlength
                             ascending stable keepdims).
Proof.
  intros HT Hbranch Haxis.
  unfold reduce_next, sort_next, argsort_next.
  rewrite HT.
  unfold reduce_next_64, sort_next_64, argsort_next_64.
  rewrite Hbranch, <- Haxis, Z.eqb_refl. simpl.
  split; intros Hlen.
  - destruct (Z.eqb_spec (length_ (offsets_ a) - 1) (length_ parents));
      [contradiction | simpl; auto].
  - rewrite Hlen, Z.eqb_refl. simpl. auto.
Qed.

(** ** Canonical form *)

Lemma returns_inv {A : Type} (call : Error * A) (v : A) (cls : string) :
  returns call v ->
  exists err, call = (err, v) /\ handle_error err cls = Ok tt.
Proof.
  destruct call as [err out]. intros [Hstr Hout]. simpl in *. subst out.
  exists err. split; [reflexivity |].
  unfold handle_error. rewrite Hstr. reflexivity.
Qed.

Lemma compact_offsets64_kernel_length a (start_at_zero : bool) out :
  compact_offsets64 a start_at_zero = Ok out ->
  length_ out = length_ (offsets_ a).
Proof.
  unfold compact_offsets64.
  destruct (T_ a); simpl;
    try (intros H; injection H as <-; simpl; lia).
  destruct (negb start_at_zero
            || (Index_getitem_at_nowrap (offsets_ a) 0 =? 0)); simpl;
    intros H; injection H as <-; simpl; lia.
Qed.

Lemma broadcast_tooffsets64_result a offsets c :
  broadcast_tooffsets64 a offsets = Ok c ->
  T_ c = int64_t /\ offsets_ c = offsets /\
  Index_getitem_at_nowrap offsets 0 = 0.
Proof.
  unfold broadcast_tooffsets64.
  destruct (Z.eqb_spec (length_ offsets) 0); [discriminate |].
  destruct (Z.eqb_spec (Index_getitem_at_nowrap offsets 0) 0) as [Hz | Hz];
    [| discriminate].
  simpl.
  destruct (length_ offsets - 1 >? length_ (offsets_ a) - 1); [discriminate |].
  destruct (awkward_listarray_broadcast_tooffsets64 _ _ _ _ _ _ _ _ _)
    as [err nextcarry].
  intros H.
  apply bind_Ok_inv in H as [[] [_ H]].
  apply bind_Ok_inv in H as [nextcontent [_ H]].
  unfold ListOffsetArrayOf_new in H.
  destruct (length_ offsets =? 0); [discriminate |].
  injection H as <-. simpl. auto.
Qed.

Lemma toListOffsetArray64_canonical a c :
  toListOffsetArray64 a true = Ok c ->
  T_ c = int64_t /\
  Index_getitem_at_nowrap (offsets_ c) 0 = 0 /\
  length c = length a.
Proof.
  unfold toListOffsetArray64. simpl.
  destruct (IndexType_eqb (T_ a) int64_t) eqn:HT; simpl.
  - destruct (Z.eqb_spec (Index_getitem_at_nowrap (offsets_ a) 0) 0)
      as [Hz | Hz].
    + unfold shallow_copy, ListOffsetArrayOf_new.
      destruct (length_ (offsets_ a) =? 0); [discriminate |].
      intros H; injection H as <-. simpl.
      destruct (T_ a); try discriminate. auto.
    + intros H. apply bind_Ok_inv in H as [offsets [Hc Hb]].
      apply compact_offsets64_kernel_length in Hc.
      apply broadcast_tooffsets64_result in Hb as (HT' & Ho & Hz').
      unfold length. rewrite Ho. repeat split; try assumption. lia.
  - intros H. apply bind_Ok_inv in H as [offsets [Hc Hb]].
    apply compact_offsets64_kernel_length in Hc.
    apply broadcast_tooffsets64_result in Hb as (HT' & Ho & Hz').
    unfold length. rewrite Ho. repeat split; try assumption. lia.
Qed.

Lemma compact_offsets64_generic a (start_at_zero : bool) :
  T_ a <> int64_t ->
  compact_offsets64 a start_at_zero = Ok (canonical_compact_offsets a).
Proof.
  intros HT. unfold compact_offsets64, canonical_compact_offsets.
  cbn [Kernel.awkward_listoffsetarray_compact_offsets64].
  rewrite handle_error_success. cbn [bind].
  replace (length_ (offsets_ a) - 1 + 1) with (length_ (offsets_ a)) by lia.
  destruct (T_ a); [reflexivity | reflexivity | contradiction].
Qed.

Lemma canonical_compact_offsets_at a (i : Z) :
  0 <= i < length_ (offsets_ a) ->
  Index_getitem_at_nowrap (canonical_compact_offsets a) i
  = Index_getitem_at_nowrap (offsets_ a) i
    - Index_getitem_at_nowrap (offsets_ a) 0.
Proof.
  intros Hi. unfold canonical_compact_offsets.
  unfold Index_getitem_at_nowrap at 1. cbn [ptr_ offset_ Index_filled].
  rewrite Z.add_0_l, load_map_seq by exact Hi.
  rewrite Z2Nat.id by lia. reflexivity.
Qed.

Lemma canonical_compact_offsets_start a :
  1 <= length_ (offsets_ a) ->
  Index_getitem_at_nowrap (canonical_compact_offsets a) 0 = 0.
Proof.
  intros Hlen. rewrite canonical_compact_offsets_at by lia. lia.
Qed.

(** C4: for 32-bit offsets, signed or unsigned, [reduce_next] is the same
    computation as converting with [toListOffsetArray64(true)] and calling
    [reduce_next] on the converted array with the same arguments, and a
    failed conversion is the failure of [reduce_next].  The conversion is
    the broadcast of the array to its compacted offsets: whenever it
    returns, the converted array has [int64_t] offsets equal to
    [offsets[i] - offsets[0]], the parameters of the original, its
    identities cut to the same number of sublists, and as content the
    original content carried by the index that the broadcast kernel
    returned, of length [offsets[N] - offsets[0]]; on it the [int64_t]
    specialization runs.  On offsets of at least one entry the conversion
    returns whenever that kernel and the carry do. *)
Theorem reduce_next_32bit_via_canonical_form a (reducer : Reducer)
    (negaxis : Z) (starts parents : Index) (outlength : Z)
    (mask keepdims : bool) :
  T_ a = int32_t \/ T_ a = uint32_t ->
  let compact := canonical_compact_offsets a in
  let kernel_call :=
    awkward_listarray_broadcast_tooffsets64 (T_ a)
      (ptr_ compact) (offset_ compact) (length_ compact)
      (ptr_ (make_starts (offsets_ a))) (offset_ (make_starts (offsets_ a)))
      (ptr_ (make_stops (offsets_ a))) (offset_ (make_stops (offsets_ a)))
      (content_length (content_ a)) in
  let carrylen := Index_getitem_at_nowrap compact (length a) in
  let identities :=
    match identities_ a with
    | Some ids => Some (Identities_getitem_range_nowrap ids 0 (length a))
    | None => None
    end in
  reduce_next a reducer negaxis starts parents outlength mask keepdims
  = reduce_next_via_canonical_form a reducer negaxis starts parents
      outlength mask keepdims /\
  toListOffsetArray64 a true = broadcast_tooffsets64 a compact /\
  (forall c,
     toListOffsetArray64 a true = Ok c ->
     (exists nextcarry,
        returns kernel_call nextcarry /\
        content_carry (content_ a) (Index_filled nextcarry carrylen)
        = Ok (content_ c)) /\
     T_ c = int64_t /\
     offsets_ c = compact /\
     identities_ c = identities /\
     parameters_ c = parameters_ a /\
     length c = length a /\
     Index_getitem_at_nowrap (offsets_ c) 0 = 0 /\
     (forall i, 0 <= i < length_ (offsets_ a) ->
        Index_getitem_at_nowrap (offsets_ c) i
        = Index_getitem_at_nowrap (offsets_ a) i
          - Index_getitem_at_nowrap (offsets_ a) 0) /\
     reduce_next c reducer negaxis starts parents outlength mask keepdims
     = reduce_next_64 c reducer negaxis starts parents outlength
                      mask keepdims /\
     reduce_next a reducer negaxis starts parents outlength mask keepdims
     = reduce_next_64 c reducer negaxis starts parents outlength
                      mask keepdims) /\
  (forall nextcarry nextcontent,
     1 <= length_ (offsets_ a) ->
     returns kernel_call nextcarry ->
     content_carry (content_ a) (Index_filled nextcarry carrylen)
     = Ok nextcontent ->
     toListOffsetArray64 a true
     = Ok (mkListOffsetArray int64_t identities (parameters_ a)
                             compact nextcontent)) /\
  (forall e,
     toListOffsetArray64 a true = Throw e ->
     reduce_next a reducer negaxis starts parents outlength mask keepdims
     = Throw e).
Proof.
  intros HT compact kernel_call carrylen identities.
  assert (HT64 : T_ a <> int64_t)
    by (destruct HT as [HT | HT]; rewrite HT; discriminate).
  assert (Hconv : toListOffsetArray64 a true
                  = broadcast_tooffsets64 a compact).
  { unfold toListOffsetArray64.
    destruct (T_ a) eqn:HTa; [| | contradiction]; cbn [IndexType_eqb andb];
      rewrite (compact_offsets64_generic a true)
        by (rewrite HTa; discriminate);
      reflexivity. }
  assert (Hrun :
    reduce_next a reducer negaxis starts parents outlength mask keepdims
    = (c <- toListOffsetArray64 a true ;;
       reduce_next_64 c reducer negaxis starts parents outlength
                      mask keepdims)).
  { unfold reduce_next, reduce_next_T.
    destruct (T_ a); [reflexivity | reflexivity | contradiction]. }
  assert (Hshape : forall c,
    broadcast_tooffsets64 a compact = Ok c ->
    (exists nextcarry,
       returns kernel_call nextcarry /\
       content_carry (content_ a) (Index_filled nextcarry carrylen)
       = Ok (content_ c)) /\
    Index_getitem_at_nowrap compact 0 = 0 /\
    c = mkListOffsetArray int64_t identities (parameters_ a) compact
                          (content_ c)).
  { intros c Hc. unfold broadcast_tooffsets64 in Hc.
    destruct (length_ compact =? 0); [discriminate |].
    destruct (Z.eqb_spec (Index_getitem_at_nowrap compact 0) 0)
      as [Hzero | Hzero]; [| discriminate].
    cbn [orb negb] in Hc.
    destruct (length_ compact - 1 >? length_ (offsets_ a) - 1);
      [discriminate |].
    cbv zeta in Hc. fold kernel_call in Hc.
    destruct kernel_call as [err nextcarry] eqn:Hcall.
    apply bind_Ok_inv in Hc as [[] [Herr Hc]].
    apply bind_Ok_inv in Hc as [nextcontent [Hcarry Hc]].
    unfold ListOffsetArrayOf_new in Hc.
    destruct (length_ compact =? 0); [discriminate |].
    injection Hc as <-. cbn [content_].
    split; [| split; [exact Hzero | reflexivity]].
    exists nextcarry. split; [| exact Hcarry].
    split; [| reflexivity]. cbn [fst].
    unfold handle_error in Herr.
    destruct (str err); [discriminate | reflexivity]. }
  split; [| split; [exact Hconv | split; [| split]]].
  - rewrite Hrun. unfold reduce_next_via_canonical_form.
    destruct (toListOffsetArray64 a true) as [c | e]; [| reflexivity].
    cbn [bind]. destruct (Hshape c (eq_sym Hconv)) as (_ & _ & ->).
    reflexivity.
  - intros c Hc. rewrite Hrun, Hc. cbn [bind]. rewrite Hconv in Hc.
    destruct (Hshape c Hc) as (Hcarried & Hzero & Hc').
    split; [exact Hcarried |]. rewrite Hc'.
    cbn [T_ offsets_ identities_ parameters_ content_].
    split; [reflexivity |]. split; [reflexivity |].
    split; [reflexivity |]. split; [reflexivity |].
    split; [reflexivity |]. split; [exact Hzero |].
    split; [intros i Hi; apply canonical_compact_offsets_at; exact Hi |].
    split; reflexivity.
  - intros nextcarry nextcontent Hlen Hkernel Hcarry. rewrite Hconv.
    unfold broadcast_tooffsets64.
    pose proof (canonical_compact_offsets_start a Hlen) as Hzero.
    fold compact in Hzero. rewrite Hzero.
    change (length_ compact) with (length_ (offsets_ a)).
    destruct (Z.eqb_spec (length_ (offsets_ a)) 0); [lia |].
    cbn [orb negb Z.eqb].
    destruct (Z.gtb_spec (length_ (offsets_ a) - 1)
                         (length_ (offsets_ a) - 1)); [lia |].
    cbv zeta.
    change (awkward_listarray_broadcast_tooffsets64 _ _ _ _ _ _ _ _ _)
      with kernel_call.
    destruct (returns_inv _ _ (classname a) Hkernel) as (err & Heq & Hok).
    rewrite Heq. cbv beta iota. rewrite Hok. cbn [bind].
    change (Index_getitem_at_nowrap compact (length_ (offsets_ a) - 1))
      with carrylen.
    rewrite Hcarry. cbn [bind]. unfold ListOffsetArrayOf_new.
    change (length_ compact) with (length_ (offsets_ a)).
    destruct (Z.eqb_spec (length_ (offsets_ a)) 0); [lia |].
    reflexivity.
  - intros e He. rewrite Hrun, He. reflexivity.
Qed.

(** C6 (as amended): when [start_at_zero] is set, or for 32-bit offsets
    whatever the flag, [compact_offsets64] on an offsets index of length
    [N + 1] returns an index of the same length with
    [out[i] = offsets[i] - offsets[0]] for every [i] in [[0, N]]; the
    result starts at zero, compacting it again returns it unchanged, and
    an [int64_t] index that already starts at zero is returned as it is.
    With [start_at_zero] unset an [int64_t] index is returned as it is,
    whether or not it starts at zero. *)
Theorem compact_offsets64_contract a (start_at_zero : bool) :
  (1 <= length_ (offsets_ a) ->
   start_at_zero = true \/ T_ a <> int64_t ->
   exists out,
     compact_offsets64 a start_at_zero = Ok out /\
     length_ out = length_ (offsets_ a) /\
     (forall i, 0 <= i < length_ (offsets_ a) ->
        Index_getitem_at_nowrap out i
        = Index_getitem_at_nowrap (offsets_ a) i
          - Index_getitem_at_nowrap (offsets_ a) 0) /\
     Index_getitem_at_nowrap out 0 = 0 /\
     (forall b again,
        T_ b = int64_t -> offsets_ b = out ->
        compact_offsets64 b again = Ok out) /\
     (T_ a = int64_t -> Index_getitem_at_nowrap (offsets_ a) 0 = 0 ->
      out = offsets_ a)) /\
  (T_ a = int64_t -> start_at_zero = false ->
   compact_offsets64 a start_at_zero = Ok (offsets_ a)).
Proof.
  split; [| intros HT ->; unfold compact_offsets64; rewrite HT;
            reflexivity].
  intros Hlen Hmode.
  set (kernel_out :=
    Index_filled
      (snd (Kernel.awkward_listoffsetarray_compact_offsets64
              (ptr_ (offsets_ a)) (offset_ (offsets_ a))
              (length_ (offsets_ a) - 1)))
      (length_ (offsets_ a) - 1 + 1)).
  assert (Hget : forall i, 0 <= i < length_ (offsets_ a) ->
    Index_getitem_at_nowrap kernel_out i
    = Index_getitem_at_nowrap (offsets_ a) i
      - Index_getitem_at_nowrap (offsets_ a) 0).
  { intros i Hi. unfold kernel_out, Index_getitem_at_nowrap. simpl.
    rewrite load_map_seq by lia.
    rewrite Z2Nat.id by lia. reflexivity. }
  assert (Hagain : forall out,
    Index_getitem_at_nowrap out 0 = 0 ->
    forall b again, T_ b = int64_t -> offsets_ b = out ->
    compact_offsets64 b again = Ok out).
  { intros out Hz b again HTb Hb. unfold compact_offsets64.
    rewrite HTb, Hb, Hz. simpl. rewrite orb_true_r. reflexivity. }
  assert (Hzero : Index_getitem_at_nowrap kernel_out 0 = 0).
  { rewrite Hget by lia. lia. }
  destruct (T_ a) eqn:HT.
  - exists kernel_out. unfold compact_offsets64. rewrite HT.
    split; [reflexivity |].
    split; [unfold kernel_out; simpl; lia |].
    split; [exact Hget |]. split; [exact Hzero |].
    split; [apply Hagain; exact Hzero | discriminate].
  - exists kernel_out. unfold compact_offsets64. rewrite HT.
    split; [reflexivity |].
    split; [unfold kernel_out; simpl; lia |].
    split; [exact Hget |]. split; [exact Hzero |].
    split; [apply Hagain; exact Hzero | discriminate].
  - destruct Hmode as [Hflag | Hne]; [subst start_at_zero | contradiction].
    destruct (Z.eqb_spec (Index_getitem_at_nowrap (offsets_ a) 0) 0)
      as [Hz | Hz].
    + exists (offsets_ a). unfold compact_offsets64. rewrite HT. simpl.
      destruct (Z.eqb_spec (Index_getitem_at_nowrap (offsets_ a) 0) 0);
        [| contradiction].
      split; [reflexivity |]. split; [reflexivity |].
      split; [intros i Hi; lia |]. split; [exact Hz |].
      split; [apply Hagain; exact Hz | reflexivity].
    + exists kernel_out. unfold compact_offsets64. rewrite HT. simpl.
      destruct (Z.eqb_spec (Index_getitem_at_nowrap (offsets_ a) 0) 0);
        [contradiction |].
      split; [reflexivity |].
      split; [unfold kernel_out; simpl; lia |].
      split; [exact Hget |]. split; [exact Hzero |].
      split; [apply Hagain; exact Hzero |].
      intros _ Hz'. contradiction.
Qed.

(** ** Reductions *)

(** C2: in the local branch of a [ListOffsetArray64] (the content branches
    or [negaxis] is not the branch depth), once the content has been
    trimmed and reduced, [reduce_next] returns a [ListOffsetArray64] over
    the reduced content whose offsets have length [outlength + 1] and
    consecutive differences [|{k : parents[k] = j}|]; the output list has
    length [outlength].  The content is reduced at the same [negaxis] with
    [nextparents] that give parent [i] to every element of sublist [i]. *)
Theorem reduce_next_local_structure a (reducer : Reducer) (negaxis : Z)
    (starts parents : Index) (outlength : Z) (mask keepdims : bool)
    (trimmed outcontent : ContentPtr) :
  let offs := offsets_ a in
  let N := length_ offs - 1 in
  let globalstart := Index_getitem_at_nowrap offs 0 in
  let globalstop := Index_getitem_at_nowrap offs N in
  let nextparents :=
    Index_filled
      (snd (Kernel.awkward_listoffsetarray_reduce_local_nextparents_64
              (ptr_ offs) (offset_ offs) N))
      (globalstop - globalstart) in
  T_ a = int64_t ->
  fst (branch_depth a) = true \/ negaxis <> snd (branch_depth a) ->
  0 <= outlength ->
  (forall k, 0 <= k -> k + 1 < length_ parents ->
     Index_getitem_at_nowrap parents k
     <= Index_getitem_at_nowrap parents (k + 1)) ->
  content_getitem_range_nowrap (content_ a) globalstart globalstop
  = Ok trimmed ->
  content_reduce_next trimmed reducer negaxis (make_starts offs)
    nextparents N mask keepdims = Ok outcontent ->
  exists outoffsets,
    reduce_next a reducer negaxis starts parents outlength mask keepdims
    = Ok (ListOffsetArray
            (mkListOffsetArray int64_t None no_parameters
                               outoffsets outcontent)) /\
    length_ outoffsets = outlength + 1 /\
    (forall j, 0 <= j < outlength ->
       Index_getitem_at_nowrap outoffsets (j + 1)
       - Index_getitem_at_nowrap outoffsets j
       = Kernel.count_parent (ptr_ parents) (offset_ parents)
                             (length_ parents) j) /\
    length (mkListOffsetArray int64_t None no_parameters
                              outoffsets outcontent) = outlength /\
    ((forall k, 0 <= k < N ->
        Index_getitem_at_nowrap offs k
        <= Index_getitem_at_nowrap offs (k + 1)) ->
     forall i p, 0 <= i < N ->
       Index_getitem_at_nowrap offs i <= p
       < Index_getitem_at_nowrap offs (i + 1) ->
       Index_getitem_at_nowrap nextparents (p - globalstart) = i).
Proof.
  intros offs N globalstart globalstop nextparents
         HT Hlocal Hout Hsorted Htrim Hreduce.
  exists (Index_filled
            (snd (Kernel.awkward_listoffsetarray_reduce_local_outoffsets_64
                    (ptr_ parents) (offset_ parents) (length_ parents)
                    outlength))
            (outlength + 1)).
  split; [| split; [| split; [| split]]].
  - unfold reduce_next. rewrite HT. unfold reduce_next_64.
    assert (Hcond : negb (fst (branch_depth a))
                    && (negaxis =? snd (branch_depth a)) = false).
    { destruct Hlocal as [Hb | Hn].
      - rewrite Hb. reflexivity.
      - destruct (Z.eqb_spec negaxis (snd (branch_depth a)));
          [contradiction | apply andb_false_r]. }
    rewrite Hcond. unfold reduce_next_local.
    cbn [Kernel.awkward_listoffsetarray_reduce_global_startstop_64
         Kernel.awkward_listoffsetarray_reduce_local_nextparents_64
         Kernel.awkward_listoffsetarray_reduce_local_outoffsets_64].
    rewrite handle_error_success. cbn [bind].
    fold offs. fold N.
    change (load (ptr_ offs) (offset_ offs + 0)) with globalstart.
    change (load (ptr_ offs) (offset_ offs + N)) with globalstop.
    rewrite Htrim. cbn [bind].
    change (Index_filled _ (globalstop - globalstart)) with nextparents.
    rewrite Hreduce. cbn [bind].
    unfold ListOffsetArrayOf_new. cbn [length_ Index_filled].
    destruct (Z.eqb_spec (outlength + 1) 0); [lia | reflexivity].
  - reflexivity.
  - intros j Hj. unfold Index_getitem_at_nowrap.
    cbn [ptr_ offset_ Index_filled]. rewrite !Z.add_0_l.
    apply local_outoffsets_differences. exact Hj.
  - unfold length. cbn. lia.
  - intros Hmono i p Hi Hp. unfold Index_getitem_at_nowrap, nextparents.
    cbn [ptr_ offset_ Index_filled]. rewrite Z.add_0_l.
    apply local_nextparents_parent; [| exact Hi | exact Hp].
    intros k Hk. apply Hmono. exact Hk.
Qed.

(** Replaces a kernel call by its outputs, given that it reported no
    error. *)
Ltac kernel_returns Hcall cls :=
  let err := fresh "err" in
  let Heq := fresh "Heq" in
  let Hok := fresh "Hok" in
  destruct (returns_inv _ _ cls Hcall) as (err & Heq & Hok);
  rewrite Heq; cbv beta iota; rewrite Hok; cbn [bind].

(** C1: in the non-local branch of a [ListOffsetArray64] (the content does
    not branch and [negaxis] is the branch depth, [parents] having one
    entry per sublist), [reduce_next] carries the content by [nextcarry]
    and reduces the carried content with [negaxis - 1], [nextstarts],
    [nextparents] and the output length [maxnextparents + 1]; the result
    is a list of length [outlength] whose starts and stops come from
    [distincts] and [gaps], wrapped in a regular layer of size 1 when
    [keepdims] is set. *)
Theorem reduce_next_nonlocal_structure a (reducer : Reducer) (negaxis : Z)
    (starts parents : Index) (outlength : Z) (mask keepdims : bool)
    (maxcount maxnextparents : Z)
    (offsetscopy nextcarry nextparents distincts : list Z)
    (nextstarts gaps outstarts outstops : list Z)
    (nextcontent outcontent : ContentPtr) :
  let offs := offsets_ a in
  let N := length_ offs - 1 in
  let nextlen :=
    Index_getitem_at_nowrap offs N - Index_getitem_at_nowrap offs 0 in
  T_ a = int64_t ->
  fst (branch_depth a) = false ->
  negaxis = snd (branch_depth a) ->
  N = length_ parents ->
  returns (awkward_listoffsetarray_reduce_nonlocal_maxcount_offsetscopy_64
             (ptr_ offs) (offset_ offs) N)
          (maxcount, offsetscopy) ->
  returns (awkward_listoffsetarray_reduce_nonlocal_preparenext_64
             nextlen (maxcount * outlength) offsetscopy
             (ptr_ offs) (offset_ offs) N
             (ptr_ parents) (offset_ parents) maxcount)
          (nextcarry, nextparents, maxnextparents, distincts) ->
  returns (awkward_listoffsetarray_reduce_nonlocal_nextstarts_64
             nextparents nextlen)
          nextstarts ->
  content_carry (content_ a) (mkIndex nextcarry 0 nextlen)
  = Ok nextcontent ->
  content_reduce_next nextcontent reducer (negaxis - 1)
    (mkIndex nextstarts 0 (maxnextparents + 1))
    (mkIndex nextparents 0 nextlen)
    (maxnextparents + 1) mask false
  = Ok outcontent ->
  returns (awkward_listoffsetarray_reduce_nonlocal_findgaps_64
             (ptr_ parents) (offset_ parents) (length_ parents))
          gaps ->
  returns (awkward_listoffsetarray_reduce_nonlocal_outstartsstops_64
             distincts (maxcount * outlength) gaps outlength)
          (outstarts, outstops) ->
  let out :=
    ListArray int64_t None no_parameters
      (mkIndex outstarts 0 outlength) (mkIndex outstops 0 outlength)
      outcontent in
  reduce_next a reducer negaxis starts parents outlength mask keepdims
  = Ok (if keepdims then RegularArray None no_parameters out 1 else out).
Proof.
  intros offs N nextlen HT Hbranch Haxis Hlen
         Hmax Hprep Hstarts Hcarry Hreduce Hgaps Hends out.
  unfold reduce_next. rewrite HT. unfold reduce_next_64.
  rewrite Hbranch, <- Haxis, Z.eqb_refl. cbn [negb andb].
  fold offs. fold N. rewrite Hlen, Z.eqb_refl. cbn [negb].
  unfold reduce_next_nonlocal.
  cbn [Kernel.awkward_listoffsetarray_reduce_global_startstop_64].
  rewrite handle_error_success. cbn [bind].
  fold offs. fold N.
  change (load (ptr_ offs) (offset_ offs + N)
          - load (ptr_ offs) (offset_ offs + 0)) with nextlen.
  kernel_returns Hmax (classname a).
  kernel_returns Hprep (classname a).
  kernel_returns Hstarts (classname a).
  unfold Index_filled. rewrite Hcarry. cbn [bind].
  rewrite Hreduce. cbn [bind].
  kernel_returns Hgaps (classname a).
  kernel_returns Hends (classname a).
  reflexivity.
Qed.

End Properties.

(** * Further properties of the list layer *)

Lemma ListOffsetArrayOf_new_inv {AM : Ambient} T identities parameters
    offsets content (a : ListOffsetArrayObj) :
  ListOffsetArrayOf_new T identities parameters offsets content = Ok a ->
  a = mkListOffsetArray T identities parameters offsets content /\
  length_ offsets <> 0.
Proof.
  unfold ListOffsetArrayOf_new.
  destruct (Z.eqb_spec (length_ offsets) 0); [discriminate |].
  intros H. injection H as <-. auto.
Qed.

(** Splits a kernel call that sits in front of a successful run. *)
Ltac kernel_succeeded H :=
  match type of H with
  | context [let '(_, _) := ?call in _] =>
      let err := fresh "err" in
      let out := fresh "out" in
      destruct call as [err out] eqn:?;
      cbv beta iota in H;
      apply bind_Ok_inv in H as [[] [_ H]]
  end.

(** Runs through the kernel calls and content calls of a successful run,
    up to the value it returns. *)
Ltac run_succeeded H :=
  repeat (cbv beta iota zeta in H;
          match type of H with
          | (let '(_, _) := ?call in _) = Ok _ =>
              destruct call as [? ?] eqn:?
          | bind _ _ = Ok _ =>
              let x := fresh "x" in
              let Hx := fresh "Hx" in
              apply bind_Ok_inv in H as [x [Hx H]]
          end);
  injection H as <-;
  try match goal with
      | Hnew : ListOffsetArrayOf_new _ _ _ _ _ = Ok _ |- _ =>
          apply ListOffsetArrayOf_new_inv in Hnew as [-> ?]
      end.

Section AccessProperties.

Context {AM : Ambient} {CT : ContentTrait} {K : Kernels} {ST : SliceTrait}.

Implicit Types a : ListOffsetArrayObj.

(** X1: [getitem_at] accepts the indices [-N .. N-1] of an array of [N]
    sublists, counts the negative ones from the end, and reports every
    other index as out of range, with the index as it was given. *)
Theorem getitem_at_wraps_and_bounds a (at_ : Z) :
  let N := length_ (offsets_ a) - 1 in
  (0 <= at_ < N -> getitem_at a at_ = getitem_at_nowrap a at_) /\
  (- N <= at_ < 0 ->
     getitem_at a at_ = getitem_at_nowrap a (at_ + N) /\
     getitem_at a at_ = getitem_at a (at_ + N)) /\
  (at_ < - N \/ N <= at_ ->
     getitem_at a at_
     = Throw (kernel_error (classname a)
                (failure "index out of range" kSliceNone (Some at_)))).
Proof.
  intros N.
  assert (Hin : forall i, 0 <= i < N -> getitem_at a i = getitem_at_nowrap a i).
  { intros i Hi. unfold getitem_at. fold N.
    destruct (Z.ltb_spec i 0); [lia |].
    destruct (Z.leb_spec 0 i); [| lia].
    destruct (Z.ltb_spec i N); [| lia]. reflexivity. }
  split; [exact (Hin at_) |]. split.
  - intros Hneg.
    assert (Hwrap : getitem_at a at_ = getitem_at_nowrap a (at_ + N)).
    { unfold getitem_at. fold N.
      destruct (Z.ltb_spec at_ 0); [| lia].
      destruct (Z.leb_spec 0 (at_ + N)); [| lia].
      destruct (Z.ltb_spec (at_ + N) N); [| lia]. reflexivity. }
    split; [exact Hwrap |]. rewrite Hwrap. symmetry. apply Hin. lia.
  - intros Hout. unfold getitem_at. fold N.
    destruct (Z.ltb_spec at_ 0).
    + destruct (Z.leb_spec 0 (at_ + N)); [| reflexivity].
      destruct (Z.ltb_spec (at_ + N) N); [lia | reflexivity].
    + destruct (Z.leb_spec 0 at_); [| lia].
      destruct (Z.ltb_spec at_ N); [lia | reflexivity].
Qed.

(** X2: [getitem_range_nowrap(start, stop)] is a view of the same content
    with [stop - start] sublists; sublist [i] of the view is sublist
    [start + i] of the array.  The only slice that is refused is the one
    whose offsets window would be empty, [stop = start - 1]. *)
Theorem getitem_range_nowrap_view a (start stop : Z) :
  (stop + 1 = start ->
   getitem_range_nowrap a start stop
   = Throw (invalid_argument
              "ListOffsetArray offsets length must be at least 1")) /\
  (stop + 1 <> start ->
   exists b,
     getitem_range_nowrap a start stop = Ok b /\
     length b = stop - start /\
     T_ b = T_ a /\ content_ b = content_ a /\
     parameters_ b = parameters_ a /\
     (forall i,
        Index_getitem_at_nowrap (offsets_ b) i
        = Index_getitem_at_nowrap (offsets_ a) (start + i)) /\
     (forall i c,
        getitem_at_nowrap b i = Ok c <->
        getitem_at_nowrap a (start + i) = Ok c)).
Proof.
  unfold getitem_range_nowrap, ListOffsetArrayOf_new.
  cbn [length_ Index_getitem_range_nowrap].
  split; intros Hwin.
  - destruct (Z.eqb_spec (stop + 1 - start) 0); [reflexivity | lia].
  - destruct (Z.eqb_spec (stop + 1 - start) 0); [lia |].
    eexists. split; [reflexivity |].
    assert (Hread : forall i,
      Index_getitem_at_nowrap
        (mkIndex (ptr_ (offsets_ a)) (offset_ (offsets_ a) + start)
                 (stop + 1 - start)) i
      = Index_getitem_at_nowrap (offsets_ a) (start + i)).
    { intros i. unfold Index_getitem_at_nowrap. cbn [ptr_ offset_].
      f_equal. lia. }
    split; [unfold length; cbn; lia |].
    split; [reflexivity |]. split; [reflexivity |]. split; [reflexivity |].
    split; [exact Hread |].
    intros i c. unfold getitem_at_nowrap, classname.
    cbn [offsets_ content_ T_].
    rewrite !Hread. replace (start + (i + 1)) with (start + i + 1) by lia.
    destruct (Index_getitem_at_nowrap (offsets_ a) (start + i)
              =? Index_getitem_at_nowrap (offsets_ a) (start + i + 1)).
    + cbn [handle_error failure str bind].
      destruct (0 <? 0); cbn [handle_error failure str bind];
        [split; discriminate |].
      destruct (0 >? 0); cbn [handle_error failure str bind];
        [split; discriminate |].
      destruct (0 >? content_length (content_ a));
        cbn [handle_error failure str bind];
        [split; discriminate | reflexivity].
    + destruct (Index_getitem_at_nowrap (offsets_ a) (start + i) <? 0);
        cbn [handle_error failure str bind]; [split; discriminate |].
      destruct (Index_getitem_at_nowrap (offsets_ a) (start + i)
                >? Index_getitem_at_nowrap (offsets_ a) (start + i + 1));
        cbn [handle_error failure str bind]; [split; discriminate |].
      destruct (Index_getitem_at_nowrap (offsets_ a) (start + i + 1)
                >? content_length (content_ a));
        cbn [handle_error failure str bind];
        [split; discriminate | reflexivity].
Qed.

(** X3: slices compose by adding their starts, and no bound of the first
    slice is kept: a slice of the view [start1 ..] is the slice of the
    array shifted by [start1], also when it reaches past the view. *)
Theorem getitem_range_nowrap_twice a b (start1 stop1 start2 stop2 : Z) :
  identities_ a = None ->
  getitem_range_nowrap a start1 stop1 = Ok b ->
  getitem_range_nowrap b start2 stop2
  = getitem_range_nowrap a (start1 + start2) (start1 + stop2).
Proof.
  intros Hids Hb. unfold getitem_range_nowrap in *. rewrite Hids in *.
  unfold ListOffsetArrayOf_new in Hb.
  destruct (length_ (Index_getitem_range_nowrap (offsets_ a) start1
                                                (stop1 + 1)) =? 0);
    [discriminate |].
  injection Hb as <-. cbn [identities_ T_ parameters_ offsets_ content_].
  assert (Hview :
    Index_getitem_range_nowrap
      (Index_getitem_range_nowrap (offsets_ a) start1 (stop1 + 1))
      start2 (stop2 + 1)
    = Index_getitem_range_nowrap (offsets_ a) (start1 + start2)
                                 (start1 + stop2 + 1)).
  { unfold Index_getitem_range_nowrap. cbn [ptr_ offset_]. f_equal; lia. }
  rewrite Hview. reflexivity.
Qed.

End AccessProperties.

Section CanonicalProperties.

Context {AM : Ambient} {CT : ContentTrait} {K : Kernels}.

Implicit Types a : ListOffsetArrayObj.

Lemma toListOffsetArray64_constructed a (start_at_zero : bool) c :
  toListOffsetArray64 a start_at_zero = Ok c ->
  T_ c = int64_t /\ length_ (offsets_ c) <> 0.
Proof.
  unfold toListOffsetArray64.
  destruct (IndexType_eqb (T_ a) int64_t
            && (negb start_at_zero
                || (Index_getitem_at_nowrap (offsets_ a) 0 =? 0))) eqn:Hfast.
  - unfold shallow_copy. intros H.
    apply ListOffsetArrayOf_new_inv in H as [-> Hlen]. cbn.
    apply andb_true_iff in Hfast as [HT _].
    destruct (T_ a); try discriminate. auto.
  - intros H. apply bind_Ok_inv in H as [offsets [_ H]].
    unfold broadcast_tooffsets64 in H.
    destruct ((length_ offsets =? 0)
              || negb (Index_getitem_at_nowrap offsets 0 =? 0));
      [discriminate |].
    destruct (length_ offsets - 1 >? length_ (offsets_ a) - 1);
      [discriminate |].
    kernel_succeeded H.
    apply bind_Ok_inv in H as [nextcontent [_ H]].
    apply ListOffsetArrayOf_new_inv in H as [-> Hlen]. cbn. auto.
Qed.

(** X4: [toListOffsetArray64(true)] is idempotent: the array it returns is
    already canonical, and converting it again, with either value of the
    flag, returns it unchanged. *)
Theorem toListOffsetArray64_idempotent a c :
  toListOffsetArray64 a true = Ok c ->
  toListOffsetArray64 c true = Ok c /\
  toListOffsetArray64 c false = Ok c.
Proof.
  intros Hc.
  destruct (toListOffsetArray64_canonical a c Hc) as (HT & Hzero & _).
  destruct (toListOffsetArray64_constructed a true c Hc) as (_ & Hlen).
  unfold toListOffsetArray64, shallow_copy, ListOffsetArrayOf_new.
  rewrite HT, Hzero. cbn.
  destruct (Z.eqb_spec (length_ (offsets_ c)) 0); [contradiction |].
  destruct c as [T ids params offs content]. cbn in HT. subst T. auto.
Qed.

(** X5: [broadcast_tooffsets64] refuses to broadcast to more sublists than
    the array has; when it returns, the result is a [ListOffsetArray64]
    with exactly the requested offsets, which start at 0 and describe at
    most as many sublists as the array, over the content carried by an
    index whose length is the last requested offset. *)
Theorem broadcast_tooffsets64_shape a (offsets : Index) :
  (length_ offsets <> 0 -> Index_getitem_at_nowrap offsets 0 = 0 ->
   length_ offsets - 1 > length a ->
   broadcast_tooffsets64 a offsets
   = Throw (invalid_argument
       ("cannot broadcast ListOffsetArray of length "
        ++ to_string (length a) ++ " to length "
        ++ to_string (length_ offsets - 1)))) /\
  (forall c,
     broadcast_tooffsets64 a offsets = Ok c ->
     T_ c = int64_t /\ offsets_ c = offsets /\
     parameters_ c = parameters_ a /\
     Index_getitem_at_nowrap offsets 0 = 0 /\
     length c <= length a /\
     exists nextcarry,
       content_carry (content_ a)
         (mkIndex nextcarry 0
            (Index_getitem_at_nowrap offsets (length_ offsets - 1)))
       = Ok (content_ c)).
Proof.
  split.
  - intros Hlen Hzero Hlong. unfold broadcast_tooffsets64.
    destruct (Z.eqb_spec (length_ offsets) 0); [contradiction |].
    rewrite Hzero. cbn [Z.eqb negb orb].
    unfold length in Hlong.
    destruct (Z.gtb_spec (length_ offsets - 1) (length_ (offsets_ a) - 1));
      [reflexivity | lia].
  - intros c H. unfold broadcast_tooffsets64 in H.
    destruct (Z.eqb_spec (length_ offsets) 0); [discriminate |].
    destruct (Z.eqb_spec (Index_getitem_at_nowrap offsets 0) 0)
      as [Hzero | Hzero]; [| discriminate].
    cbn [negb orb] in H.
    destruct (Z.gtb_spec (length_ offsets - 1) (length_ (offsets_ a) - 1));
      [discriminate |].
    kernel_succeeded H.
    apply bind_Ok_inv in H as [nextcontent [Hcarry H]].
    apply ListOffsetArrayOf_new_inv in H as [-> _]. cbn.
    repeat (split; [reflexivity || assumption || (unfold length; cbn; lia) |]).
    exists out. exact Hcarry.
Qed.

(** X6: flattening at the next axis returns the offsets and the content of
    the canonical form: the offsets start at 0 and there are as many of
    them as in the array. *)
Theorem offsets_and_flattened_next_axis a (axis depth : Z)
    (offsets : Index) (flattened : ContentPtr) :
  axis_wrap_if_negative (ListOffsetArray a) axis = Ok (depth + 1) ->
  offsets_and_flattened a axis depth = Ok (offsets, flattened) ->
  Index_getitem_at_nowrap offsets 0 = 0 /\
  length_ offsets = length_ (offsets_ a) /\
  exists canonical,
    toListOffsetArray64 a true = Ok canonical /\
    offsets = offsets_ canonical /\ flattened = content_ canonical.
Proof.
  intros Hwrap H. unfold offsets_and_flattened in H.
  rewrite Hwrap in H. cbn [bind] in H.
  destruct (Z.eqb_spec (depth + 1) depth); [lia |].
  rewrite Z.eqb_refl in H.
  apply bind_Ok_inv in H as [raw [Hraw H]].
  injection H as <- <-.
  destruct (toListOffsetArray64_canonical a raw Hraw) as (_ & Hzero & Hlen).
  unfold length in Hlen.
  split; [exact Hzero |]. split; [lia |].
  exists raw. auto.
Qed.

(** X7: flattening below the next axis keeps this list layer: the offsets
    it returns are empty, and the flattened content is a list with as many
    sublists as the array, without identities or parameters; it keeps the
    offsets of the array when the content had nothing to flatten into. *)
Theorem offsets_and_flattened_deeper a (axis depth toaxis : Z)
    (offsets : Index) (flattened : ContentPtr) :
  axis_wrap_if_negative (ListOffsetArray a) axis = Ok toaxis ->
  toaxis <> depth -> toaxis <> depth + 1 ->
  offsets_and_flattened a axis depth = Ok (offsets, flattened) ->
  length_ offsets = 0 /\
  exists inneroffsets inner out,
    content_offsets_and_flattened (content_ a) axis (depth + 1)
    = Ok (inneroffsets, inner) /\
    flattened = ListOffsetArray out /\
    content_ out = inner /\
    length out = length a /\
    identities_ out = None /\ parameters_ out = no_parameters /\
    (length_ inneroffsets = 0 ->
     T_ out = T_ a /\ offsets_ out = offsets_ a) /\
    (length_ inneroffsets <> 0 -> T_ out = int64_t).
Proof.
  intros Hwrap Hne0 Hne1 H. unfold offsets_and_flattened in H.
  rewrite Hwrap in H. cbn [bind] in H.
  destruct (Z.eqb_spec toaxis depth); [contradiction |].
  destruct (Z.eqb_spec toaxis (depth + 1)); [contradiction |].
  apply bind_Ok_inv in H as [[inneroffsets inner] [Hinner H]].
  cbn [fst snd] in H.
  destruct (Z.eqb_spec (length_ inneroffsets) 0) as [Hempty | Hfull].
  - apply bind_Ok_inv in H as [out [Hout H]].
    injection H as <- <-.
    apply ListOffsetArrayOf_new_inv in Hout as [-> _].
    split; [reflexivity |].
    exists inneroffsets, inner. eexists.
    split; [exact Hinner |]. split; [reflexivity |]. cbn.
    repeat (split; [reflexivity |]). split; [auto | contradiction].
  - kernel_succeeded H.
    apply bind_Ok_inv in H as [out' [Hout H]].
    injection H as <- <-.
    apply ListOffsetArrayOf_new_inv in Hout as [-> _].
    split; [reflexivity |].
    exists inneroffsets, inner. eexists.
    split; [exact Hinner |]. split; [reflexivity |]. cbn.
    split; [reflexivity |]. split; [unfold length; cbn; lia |].
    split; [reflexivity |]. split; [reflexivity |].
    split; [contradiction | auto].
Qed.

(** X8: [combinations] with [n >= 1], at any axis but the current depth,
    returns a [ListOffsetArray64] with as many sublists as the array, with
    the identities of the array and without parameters. *)
Theorem combinations_keeps_length a (n : Z) (replacement : bool)
    (recordlookup : RecordLookup) (parameters : Parameters)
    (axis depth toaxis : Z) (r : ContentPtr) :
  axis_wrap_if_negative (ListOffsetArray a) axis = Ok toaxis ->
  toaxis <> depth ->
  combinations a n replacement recordlookup parameters axis depth = Ok r ->
  1 <= n /\
  exists out,
    r = ListOffsetArray out /\
    T_ out = int64_t /\
    length out = length a /\
    identities_ out = identities_ a /\
    parameters_ out = no_parameters.
Proof.
  intros Hwrap Hne H. unfold combinations in H.
  destruct (Z.ltb_spec n 1); [discriminate |].
  split; [lia |].
  rewrite Hwrap in H. cbn [bind] in H.
  destruct (Z.eqb_spec toaxis depth); [contradiction |].
  destruct (toaxis =? depth + 1).
  - destruct (awkward_listarray_combinations_length_64 _ _ _ _ _ _ _ _)
      as [err1 [totallen offsets]].
    apply bind_Ok_inv in H as [[] [_ H]].
    destruct (awkward_listarray_combinations_64 _ _ _ _ _ _ _ _)
      as [err2 tocarry].
    apply bind_Ok_inv in H as [[] [_ H]].
    apply bind_Ok_inv in H as [contents [_ H]].
    apply bind_Ok_inv in H as [out [Hout H]].
    injection H as <-.
    apply ListOffsetArrayOf_new_inv in Hout as [-> _].
    eexists. split; [reflexivity |]. cbn.
    split; [reflexivity |]. split; [unfold length; cbn; lia |]. auto.
  - apply bind_Ok_inv in H as [rawcompact [Hcompact H]].
    apply bind_Ok_inv in H as [next [_ H]].
    apply bind_Ok_inv in H as [out [Hout H]].
    injection H as <-.
    apply ListOffsetArrayOf_new_inv in Hout as [-> _].
    destruct (toListOffsetArray64_canonical a rawcompact Hcompact)
      as (_ & _ & Hlen).
    eexists. split; [reflexivity |]. cbn.
    split; [reflexivity |]. split; [exact Hlen |]. auto.
Qed.

End CanonicalProperties.

Section ShapeProperties.

Context {AM : Ambient} {CT : ContentTrait} {K : Kernels}.

Implicit Types a : ListOffsetArrayObj.

Lemma sort_next_64_shape a negaxis starts parents outlength
    ascending stable keepdims r :
  sort_next_64 a negaxis starts parents outlength ascending stable keepdims
  = Ok r ->
  exists outcontent,
    r = keepdims_wrap keepdims
          (mkListOffsetArray int64_t None no_parameters
                             (offsets_ a) outcontent).
Proof.
  unfold sort_next_64. intros H.
  destruct (negb (fst (branch_depth a))
            && (negaxis =? snd (branch_depth a))).
  - destruct (negb (length_ (offsets_ a) - 1 =? length_ parents));
      [discriminate |].
    unfold sort_next_nonlocal in H. cbv zeta in H.
    run_succeeded H.
    eexists. reflexivity.
  - unfold sort_next_local in H. cbv zeta in H.
    run_succeeded H.
    eexists. reflexivity.
Qed.

Lemma argsort_next_64_shape a negaxis starts parents outlength
    ascending stable keepdims r :
  argsort_next_64 a negaxis starts parents outlength ascending stable keepdims
  = Ok r ->
  exists outcontent,
    r = keepdims_wrap keepdims
          (mkListOffsetArray int64_t None no_parameters
                             (offsets_ a) outcontent).
Proof.
  unfold argsort_next_64. intros H.
  destruct (negb (fst (branch_depth a))
            && (negaxis =? snd (branch_depth a))).
  - destruct (negb (length_ (offsets_ a) - 1 =? length_ parents));
      [discriminate |].
    unfold argsort_next_nonlocal in H. cbv zeta in H.
    run_succeeded H.
    eexists. reflexivity.
  - unfold argsort_next_local in H. cbv zeta in H.
    run_succeeded H.
    eexists. reflexivity.
Qed.

(** X9: on a [ListOffsetArray64], in the local branch as much as at the
    target axis, a [sort_next] or [argsort_next] that returns gives back a
    list over the offsets of the input, without identities or parameters;
    with [keepdims] that list is the content of a [RegularArray] whose size
    is the number of sublists. *)
Theorem sort_next_keeps_offsets a (negaxis : Z) (starts parents : Index)
    (outlength : Z) (ascending stable keepdims : bool) (r : ContentPtr) :
  T_ a = int64_t ->
  sort_next a negaxis starts parents outlength ascending stable keepdims
  = Ok r \/
  argsort_next a negaxis starts parents outlength ascending stable keepdims
  = Ok r ->
  exists outcontent,
    let out := mkListOffsetArray int64_t None no_parameters
                                 (offsets_ a) outcontent in
    r = (if keepdims then
           RegularArray None no_parameters (ListOffsetArray out) (length a)
         else ListOffsetArray out).
Proof.
  intros HT H. unfold sort_next, argsort_next in H. rewrite HT in H.
  destruct H as [H | H].
  - apply sort_next_64_shape in H as [outcontent ->].
    exists outcontent. reflexivity.
  - apply argsort_next_64_shape in H as [outcontent ->].
    exists outcontent. reflexivity.
Qed.

(** X10: with 32-bit offsets, a [sort_next] or [argsort_next] that returns
    gives back a list over the offsets of the canonical form, which start
    at 0; the number of sublists is that of the input. *)
Theorem sort_next_32bit_keeps_length a (negaxis : Z)
    (starts parents : Index) (outlength : Z)
    (ascending stable keepdims : bool) (r : ContentPtr) :
  T_ a = int32_t \/ T_ a = uint32_t ->
  sort_next a negaxis starts parents outlength ascending stable keepdims
  = Ok r \/
  argsort_next a negaxis starts parents outlength ascending stable keepdims
  = Ok r ->
  exists canonical outcontent,
    toListOffsetArray64 a true = Ok canonical /\
    let out := mkListOffsetArray int64_t None no_parameters
                                 (offsets_ canonical) outcontent in
    r = keepdims_wrap keepdims out /\
    Index_getitem_at_nowrap (offsets_ out) 0 = 0 /\
    length out = length a.
Proof.
  intros HT H.
  assert (Hgen :
    sort_next_T a negaxis starts parents outlength ascending stable keepdims
    = Ok r \/
    argsort_next_T a negaxis starts parents outlength ascending stable keepdims
    = Ok r).
  { unfold sort_next, argsort_next in H.
    destruct HT as [HT | HT]; rewrite HT in H; exact H. }
  clear H. unfold sort_next_T, argsort_next_T in Hgen.
  destruct Hgen as [H | H];
    apply bind_Ok_inv in H as [canonical [Hcanon H]];
    destruct (toListOffsetArray64_canonical a canonical Hcanon)
      as (_ & Hzero & Hlen).
  - apply sort_next_64_shape in H as [outcontent ->].
    exists canonical, outcontent. cbn. auto.
  - apply argsort_next_64_shape in H as [outcontent ->].
    exists canonical, outcontent. cbn. auto.
Qed.

(** X11: a [reduce_next] on a [ListOffsetArray64] that returns gives back
    [outlength] entries: in the local branch a [ListOffsetArray64] with
    [outlength + 1] offsets, whatever [keepdims] is; in the non-local
    branch a [ListArray64] with [outlength] starts and stops, inside a
    [RegularArray] of size 1 under [keepdims].  Neither has identities or
    parameters. *)
Theorem reduce_next_result_shape a (reducer : Reducer) (negaxis : Z)
    (starts parents : Index) (outlength : Z) (mask keepdims : bool)
    (r : ContentPtr) :
  T_ a = int64_t ->
  reduce_next a reducer negaxis starts parents outlength mask keepdims
  = Ok r ->
  (fst (branch_depth a) = false /\ negaxis = snd (branch_depth a) /\
   length a = length_ parents /\
   exists outstarts outstops outcontent,
     let out := ListArray int64_t None no_parameters
                  (mkIndex outstarts 0 outlength)
                  (mkIndex outstops 0 outlength) outcontent in
     r = (if keepdims then RegularArray None no_parameters out 1 else out))
  \/
  ((fst (branch_depth a) = true \/ negaxis <> snd (branch_depth a)) /\
   outlength + 1 <> 0 /\
   exists outoffsets outcontent,
     r = ListOffsetArray
           (mkListOffsetArray int64_t None no_parameters
              (mkIndex outoffsets 0 (outlength + 1)) outcontent)).
Proof.
  intros HT H. unfold reduce_next in H. rewrite HT in H.
  unfold reduce_next_64 in H.
  destruct (fst (branch_depth a)) eqn:Hbranch; cbn [negb andb] in H.
  - right. split; [auto |].
    unfold reduce_next_local in H. cbv zeta in H.
    run_succeeded H.
    split; [assumption |]. do 2 eexists. unfold Index_filled. reflexivity.
  - destruct (Z.eqb_spec negaxis (snd (branch_depth a))) as [Haxis | Haxis].
    + left. split; [reflexivity |]. split; [exact Haxis |].
      destruct (Z.eqb_spec (length_ (offsets_ a) - 1) (length_ parents))
        as [Hlen | Hlen]; [| discriminate].
      cbn [negb] in H. split; [exact Hlen |].
      unfold reduce_next_nonlocal in H. cbv zeta in H.
      run_succeeded H.
      do 3 eexists. cbv zeta. unfold Index_filled. reflexivity.
    + right. split; [auto |].
      unfold reduce_next_local in H. cbv zeta in H.
      run_succeeded H.
      split; [assumption |]. do 2 eexists. unfold Index_filled. reflexivity.
Qed.

(** X12: a list layer never reads the [starts] it is given: [reduce_next],
    [sort_next] and [argsort_next] return the same for any two [starts],
    since the content receives starts rebuilt from the offsets of this
    layer. *)
Theorem list_layer_ignores_starts a (reducer : Reducer) (negaxis : Z)
    (starts starts' parents : Index) (outlength : Z)
    (mask ascending stable keepdims : bool) :
  reduce_next a reducer negaxis starts parents outlength mask keepdims
  = reduce_next a reducer negaxis starts' parents outlength mask keepdims /\
  sort_next a negaxis starts parents outlength ascending stable keepdims
  = sort_next a negaxis starts' parents outlength ascending stable keepdims /\
  argsort_next a negaxis starts parents outlength ascending stable keepdims
  = argsort_next a negaxis starts' parents outlength
                 ascending stable keepdims.
Proof.
  repeat split; reflexivity.
Qed.

End ShapeProperties.

Section SortingProperties.

Context {AM : Ambient} {CT : ContentTrait} {K : Kernels}.

Implicit Types a : ListOffsetArrayObj.






End SortingProperties.

Section SliceProperties.

Context {AM : Ambient} {CT : ContentTrait} {K : Kernels} {ST : SliceTrait}.

Implicit Types a : ListOffsetArrayObj.

(** X13: slicing every sublist by a range treats a missing step as the
    step 1, and a call that returns gives back a list of the same offsets
    type with as many sublists as the input and with its identities and
    parameters, whether or not an advanced index is being carried. *)
Theorem getitem_next_range_keeps_length a (start stop : Z) (tail : Slice)
    (advanced : Index) :
  getitem_next_range a (mkSliceRange start stop Slice_none) tail advanced
  = getitem_next_range a (mkSliceRange start stop 1) tail advanced /\
  (forall step r,
     getitem_next_range a (mkSliceRange start stop step) tail advanced = Ok r ->
     exists out,
       r = ListOffsetArray out /\
       T_ out = T_ a /\
       length out = length a /\
       identities_ out = identities_ a /\
       parameters_ out = parameters_ a).
Proof.
  split.
  - unfold getitem_next_range. cbn [range_start range_stop range_step].
    rewrite Z.eqb_refl.
    destruct (1 =? Slice_none); reflexivity.
  - intros step r H. unfold getitem_next_range in H.
    cbn [range_start range_stop range_step] in H. cbv zeta in H.
    destruct (length_ advanced =? 0).
    + run_succeeded H.
      eexists. split; [reflexivity |]. cbn.
      split; [reflexivity |]. split; [unfold length; cbn; lia |]. auto.
    + run_succeeded H.
      eexists. split; [reflexivity |]. cbn.
      split; [reflexivity |]. split; [unfold length; cbn; lia |]. auto.
Qed.

(** X14: [localindex] selects its branch with the axis as it was given,
    not with the wrapped one: for a negative axis (and a depth that is not
    negative) it always descends into the content with the same axis and
    wraps the answer in a list over the offsets and identities of the
    array, without parameters, whatever [axis_wrap_if_negative] returned. *)
Theorem localindex_negative_axis_descends a (axis depth toaxis : Z) :
  axis_wrap_if_negative (ListOffsetArray a) axis = Ok toaxis ->
  axis < 0 -> 0 <= depth ->
  localindex a axis depth
  = (next <- content_localindex (content_ a) axis (depth + 1) ;;
     out <- ListOffsetArrayOf_new (T_ a) (identities_ a) no_parameters
              (offsets_ a) next ;;
     Ok (ListOffsetArray out)).
Proof.
  intros Hwrap Hneg Hdepth. unfold localindex.
  rewrite Hwrap. cbn [bind].
  destruct (Z.eqb_spec axis depth); [lia |].
  destruct (Z.eqb_spec axis (depth + 1)); [lia |].
  reflexivity.
Qed.

End SliceProperties.

(** * Properties of ListOffsetForm *)

Section FormProperties.

Import Forms.

Context {FA : FormAmbient} {FT : FormTrait}.

(** X15: every [ListOffsetForm] layer adds exactly one to each of the three
    depth reports and leaves the branching flag alone: a form of [n] list
    layers over a form of another class reports the depths of that form
    plus [n].  So when the three reports agree on the innermost form they
    agree on the whole form. *)
Theorem list_layers_add_to_depths (f : Form) :
  let n := Z.of_nat (nesting f) in
  let x := innermost f in
  purelist_depth f = other_purelist_depth x + n /\
  minmax_depth f
  = (fst (other_minmax_depth x) + n, snd (other_minmax_depth x) + n) /\
  branch_depth f
  = (fst (other_branch_depth x), snd (other_branch_depth x) + n) /\
  (other_minmax_depth x = (other_purelist_depth x, other_purelist_depth x) ->
   other_branch_depth x = (false, other_purelist_depth x) ->
   minmax_depth f = (purelist_depth f, purelist_depth f) /\
   branch_depth f = (false, purelist_depth f)).
Proof.
  induction f as [x | h p offsets content IH]; cbn zeta.
  - cbn. rewrite !Z.add_0_r.
    repeat split; try apply surjective_pairing; auto.
  - cbn zeta in IH. destruct IH as (Hpure & Hminmax & Hbranch & _).
    cbn [nesting innermost purelist_depth minmax_depth branch_depth].
    rewrite Hpure, Hminmax, Hbranch. cbn [fst snd].
    rewrite Nat2Z.inj_succ.
    assert (Hshape :
      forall u v w : Z, (u + w + 1, v + w + 1) = (u + Z.succ w, v + Z.succ w))
      by (intros; f_equal; lia).
    split; [lia |]. split; [apply Hshape |].
    split; [f_equal; lia |].
    intros Hmm Hbd. rewrite Hmm, Hbd. cbn [fst snd].
    split; f_equal; lia.
Qed.

(** X16: [purelist_parameter] returns the value of the outermost list layer
    whose own parameter for the key is not ["null"], and asks the innermost
    form of another class when every layer answers ["null"]. *)
Theorem purelist_parameter_outermost (f : Form) (key : string) :
  purelist_parameter f key
  = match find (fun v => negb (String.eqb v "null"))
               (layer_parameter f key) with
    | Some v => v
    | None => other_purelist_parameter (innermost f) key
    end.
Proof.
  induction f as [x | h p offsets content IH]; cbn.
  - reflexivity.
  - destruct (String.eqb (parameter p key) "null"); cbn;
      [exact IH | reflexivity].
Qed.

(** X17: [equal] is reflexive and symmetric on forms, for every choice of
    the two checks, as soon as the comparison of parameters and the
    comparison of the other forms are, and no other form equals a list. *)
Theorem equal_reflexive_symmetric (check_identities check_parameters : bool) :
  (forall p, parameters_equal p p = true) ->
  (forall p q, parameters_equal p q = parameters_equal q p) ->
  (forall x, other_equal x (OtherForm x) check_identities check_parameters
             = true) ->
  (forall x y,
     other_equal x (OtherForm y) check_identities check_parameters
     = other_equal y (OtherForm x) check_identities check_parameters) ->
  (forall x h p offsets content,
     other_equal x (ListOffsetForm h p offsets content)
                 check_identities check_parameters = false) ->
  (forall f, equal f f check_identities check_parameters = true) /\
  (forall f g,
     equal f g check_identities check_parameters
     = equal g f check_identities check_parameters).
Proof.
  intros Hprefl Hpsym Horefl Hosym Holist. split.
  - induction f as [x | h p offsets content IH]; cbn.
    + apply Horefl.
    + rewrite Bool.eqb_reflx, Hprefl, IH. cbn.
      rewrite !andb_false_r. destruct offsets; reflexivity.
  - induction f as [x | h p offsets content IH]; intros g.
    + destruct g as [y | h' p' offsets' content']; cbn.
      * apply Hosym.
      * rewrite Holist.
        destruct (check_identities
                  && negb (Bool.eqb h' (other_has_identities x)));
          [reflexivity |].
        destruct (check_parameters
                  && negb (parameters_equal p' (other_parameters x)));
          reflexivity.
    + destruct g as [y | h' p' offsets' content']; cbn.
      * rewrite Holist.
        destruct (check_identities
                  && negb (Bool.eqb h (other_has_identities y)));
          [reflexivity |].
        destruct (check_parameters
                  && negb (parameters_equal p (other_parameters y)));
          reflexivity.
      * rewrite (IH content'), (Hpsym p p').
        replace (Bool.eqb h h') with (Bool.eqb h' h)
          by (destruct h, h'; reflexivity).
        replace (Index_Form_eqb offsets offsets')
          with (Index_Form_eqb offsets' offsets)
          by (destruct offsets, offsets'; reflexivity).
        reflexivity.
Qed.

(** X18: forms that [equal] accepts have the same number of list layers,
    provided no other form equals a list; if the other forms that compare
    equal report the same depth, so do the two forms. *)
Theorem equal_forms_same_depth (check_identities check_parameters : bool)
    (f g : Form) :
  (forall x h p offsets content,
     other_equal x (ListOffsetForm h p offsets content)
                 check_identities check_parameters = false) ->
  equal f g check_identities check_parameters = true ->
  nesting f = nesting g /\
  ((forall x y,
      other_equal x (OtherForm y) check_identities check_parameters = true ->
      other_purelist_depth x = other_purelist_depth y) ->
   purelist_depth f = purelist_depth g).
Proof.
  intros Holist. revert g.
  induction f as [x | h p offsets content IH]; intros g Heq.
  - destruct g as [y | h' p' offsets' content']; cbn in Heq.
    + split; [reflexivity |]. intros Hdepth. cbn. apply Hdepth. exact Heq.
    + rewrite Holist in Heq. discriminate.
  - destruct g as [y | h' p' offsets' content']; cbn in Heq.
    + destruct (check_identities
                && negb (Bool.eqb h (other_has_identities y)));
        [discriminate |].
      destruct (check_parameters
                && negb (parameters_equal p (other_parameters y)));
        discriminate.
    + destruct (check_identities && negb (Bool.eqb h h'));
        [discriminate |].
      destruct (check_parameters && negb (parameters_equal p p'));
        [discriminate |].
      apply andb_true_iff in Heq as [_ Heq].
      destruct (IH content' Heq) as [Hn Hd].
      split; [cbn; rewrite Hn; reflexivity |].
      intros Hdepth. cbn. rewrite (Hd Hdepth). reflexivity.
Qed.

End FormProperties.

(** * Properties of PrimitiveType *)

Section PrimitiveProperties.

Import Primitive.

Context {TT : TypeTrait}.

Local Open Scope string_scope.

Lemma DType_eqb_eq (x y : DType) : DType_eqb x y = true <-> x = y.
Proof.
  split.
  - destruct x, y; cbn; intros H; reflexivity || discriminate.
  - intros <-. destruct x; reflexivity.
Qed.

Lemma append_inv_head (s u v : string) : s ++ u = s ++ v -> u = v.
Proof.
  induction s as [| c s IH]; cbn; intros H; [exact H |].
  injection H as H. apply IH. exact H.
Qed.

Lemma dtype_name_distinct (d1 d2 : DType) (s1 s2 rest : string) :
  dtype_name d1 = Some s1 -> dtype_name d2 = Some s2 ->
  s1 ++ rest = s2 ++ rest -> d1 = d2.
Proof.
  destruct d1, d2; cbn; intros H1 H2 H;
    try discriminate; try reflexivity;
    injection H1 as <-; injection H2 as <-; cbn in H;
    repeat match type of H with
           | String _ _ = String _ _ =>
               let Hc := fresh "Hc" in
               injection H as Hc H; try discriminate Hc
           end.
Qed.

(** X19: without a type-string override, [tostring_part] prints each of the
    eleven dtypes, and two primitive types with the same parameters print
    the same text exactly when their dtypes are the same, which is also
    exactly when [equal] accepts them. *)
Theorem tostring_part_tells_dtypes_apart (t1 t2 : PrimitiveType)
    (indent pre post : string) :
  parameters_ t1 = parameters_ t2 ->
  get_typestr (parameters_ t1) = None ->
  dtype_ t1 <> numtypes -> dtype_ t2 <> numtypes ->
  (exists s, tostring_part t1 indent pre post = Some s) /\
  (tostring_part t1 indent pre post = tostring_part t2 indent pre post
   <-> dtype_ t1 = dtype_ t2) /\
  (dtype_ t1 = dtype_ t2 <-> equal t1 (Primitive t2) false = true).
Proof.
  intros Hparams Hstr Hd1 Hd2.
  assert (Hname : forall d, d <> numtypes -> exists s, dtype_name d = Some s).
  { intros d Hd. destruct d; cbn; eauto. contradiction. }
  destruct (Hname _ Hd1) as [s1 Hs1].
  destruct (Hname _ Hd2) as [s2 Hs2].
  unfold tostring_part. rewrite <- Hparams, Hstr, Hs1, Hs2.
  split; [destruct (parameters_empty (parameters_ t1)); eauto |].
  split.
  - split.
    + intros H.
      destruct (parameters_empty (parameters_ t1));
        injection H as H;
        apply append_inv_head in H; apply append_inv_head in H;
        exact (dtype_name_distinct _ _ _ _ _ Hs1 Hs2 H).
    + intros Hd. rewrite Hd in Hs1. rewrite Hs1 in Hs2.
      injection Hs2 as ->. reflexivity.
  - unfold equal. cbn [andb]. symmetry. apply DType_eqb_eq.
Qed.

(** X20: leaving the parameters aside, [equal] on primitive types is the
    equality of their dtypes: it is reflexive, symmetric and transitive,
    it accepts a shallow copy, it accepts whatever it accepts when the
    parameters are checked too, and it rejects every type of another
    class. *)
Theorem equal_is_dtype_equality :
  (forall t, equal t (Primitive t) false = true) /\
  (forall t, equal t (Primitive (shallow_copy t)) false = true) /\
  (forall t u, equal t (Primitive u) false = equal u (Primitive t) false) /\
  (forall t u v,
     equal t (Primitive u) false = true ->
     equal u (Primitive v) false = true ->
     equal t (Primitive v) false = true) /\
  (forall t other, equal t other true = true -> equal t other false = true) /\
  (forall t u check_parameters,
     equal t (Primitive u) check_parameters = true -> dtype_ t = dtype_ u) /\
  (forall t x check_parameters, equal t (Other x) check_parameters = false).
Proof.
  unfold equal. cbn [andb].
  split; [intros t; apply DType_eqb_eq; reflexivity |].
  split; [intros t; apply DType_eqb_eq; reflexivity |].
  split; [intros t u; destruct (dtype_ t), (dtype_ u); reflexivity |].
  split.
  { intros t u v Htu Huv. apply DType_eqb_eq in Htu, Huv.
    apply DType_eqb_eq. congruence. }
  split.
  { intros t [u | x] H; [| discriminate].
    destruct (negb (equal_parameters (parameters_ t) (parameters_ u)));
      [discriminate | exact H]. }
  split; [| reflexivity].
  intros t u c H. apply DType_eqb_eq.
  destruct (c && negb (equal_parameters (parameters_ t) (parameters_ u)));
    [discriminate | exact H].
Qed.

End PrimitiveProperties.

(** * Evaluation on literal arrays *)

Import Example.

(** Scenario 1 of section 8: the sum along the inner axis of
    [[1,2,3], [], [4,5], [6]] is [6, 0, 9, 6]. *)
Example sum_inner_axis :
  reduce_next (list_of int64_t [0; 3; 3; 5; 6] [1; 2; 3; 4; 5; 6]) tt 1
    (index_of_list [0]) (index_of_list [0; 0; 0; 0]) 1 false false
  = Ok (ListOffsetArray
          (mkListOffsetArray int64_t None tt (mkIndex [0; 4] 0 2)
             (ForeignArray [6; 0; 9; 6]))).
Proof. vm_compute. reflexivity. Qed.

(** The slice [3:1] of an array of four sublists hands the constructor an
    offsets window of length [-1], and the array is constructed. *)
Lemma constructor_rejects_only_length_zero_witness :
  let a := list_of int64_t [0; 2; 2; 5; 6] [1; 2; 3; 4; 5; 6] in
  length_ (Index_getitem_range_nowrap (offsets_ a) 3 (1 + 1)) < 0 /\
  exists b,
    getitem_range_nowrap a 3 1 = Ok b /\
    length_ (offsets_ b) = -1 /\
    length b = -2.
Proof.
  intros a.
  assert (Hneg : length_ (Index_getitem_range_nowrap (offsets_ a) 3 (1 + 1))
                 < 0) by reflexivity.
  split; [exact Hneg |].
  destruct (constructor_rejects_only_length_zero (AM := ambient)
              int64_t None tt
              (Index_getitem_range_nowrap (offsets_ a) 3 (1 + 1))
              (content_ a))
    as (_ & _ & Hbuilt & Hbroken).
  destruct (Hbroken Hneg) as (b & Hb & _).
  destruct (Hbuilt b Hb) as (Hoffsets & _ & Hlength & _).
  exists b. split; [exact Hb |].
  rewrite Hlength, Hoffsets. split; reflexivity.
Defined.

(** Empty sublists whose shared offset is negative or beyond the content,
    and an empty sublist over a content of negative length. *)
Lemma getitem_at_nowrap_empty_sublist_witness :
  let a := list_of int64_t [-1; -1; 7; 7] [] in
  let inner :=
    mkListOffsetArray int64_t None tt (mkIndex [0; 2; 2; 5; 6] 3 (-1))
                      (ForeignArray [1; 2; 3; 4; 5; 6]) in
  let outer :=
    mkListOffsetArray int64_t None tt (index_of_list [0; 0])
                      (ListOffsetArray inner) in
  getitem_at_nowrap a 0 = Ok (ForeignArray []) /\
  getitem_at_nowrap a 2 = Ok (ForeignArray []) /\
  getitem_at_nowrap outer 0
  = Throw (kernel_error "ListOffsetArray64"
             (failure
                "offsets[i] != offsets[i + 1] and offsets[i + 1] > len(content)"
                kSliceNone (Some 0))).
Proof.
  intros a inner outer. split; [| split].
  - destruct (getitem_at_nowrap_empty_sublist a 0) as [Hfits _];
      [reflexivity |].
    rewrite Hfits; [reflexivity | vm_compute; discriminate].
  - destruct (getitem_at_nowrap_empty_sublist a 2) as [Hfits _];
      [reflexivity |].
    rewrite Hfits; [reflexivity | vm_compute; discriminate].
  - destruct (getitem_at_nowrap_empty_sublist outer 0) as [_ Hfails];
      [reflexivity |].
    rewrite Hfails; [reflexivity | reflexivity].
Defined.

(** C10 as stated fails: the slice [3:1] of a list is a list of length
    [-2]; over it as content, an empty sublist is normalized to [0, 0) and
    the check [stop > content.length] still fires, so
    [getitem_at_nowrap(0)] fails instead of returning the empty range. *)
Lemma getitem_at_nowrap_negative_content_counterexample :
  let a := list_of int64_t [0; 2; 2; 5; 6] [1; 2; 3; 4; 5; 6] in
  exists inner outer,
    getitem_range_nowrap a 3 1 = Ok inner /\
    ListOffsetArrayOf_new int64_t None tt (index_of_list [0; 0])
                          (ListOffsetArray inner) = Ok outer /\
    Index_getitem_at_nowrap (offsets_ outer) 0
    = Index_getitem_at_nowrap (offsets_ outer) (0 + 1) /\
    content_length (content_ outer) = -2 /\
    getitem_at_nowrap outer 0
    = Throw (kernel_error "ListOffsetArray64"
               (failure
                  "offsets[i] != offsets[i + 1] and offsets[i + 1] > len(content)"
                  kSliceNone (Some 0))) /\
    (forall c, getitem_at_nowrap outer 0 <> Ok c).
Proof.
  intros a. eexists. eexists.
  split; [reflexivity |]. split; [reflexivity |].
  split; [reflexivity |]. split; [reflexivity |].
  split; [reflexivity |]. intros c. discriminate.
Qed.

(** C7 as stated fails: with the offsets [-1, -1] the offset at 0 is
    negative, and yet [getitem_at_nowrap(0)] returns the empty range instead
    of failing. *)
Lemma getitem_at_nowrap_negative_offset_counterexample :
  let a := list_of int64_t [-1; -1] [] in
  Index_getitem_at_nowrap (offsets_ a) 0 < 0 /\
  getitem_at_nowrap a 0 = Ok (ForeignArray []) /\
  (forall e, getitem_at_nowrap a 0 <> Throw e).
Proof.
  intros a. split; [reflexivity |]. split; [reflexivity |].
  intros e. discriminate.
Qed.

(** A valid sublist, a sublist reaching beyond the content and an empty
    sublist of one array. *)
Lemma getitem_at_nowrap_checks_witness :
  let a := list_of int64_t [1; 3; 7; 7] [10; 20; 30; 40] in
  getitem_at_nowrap a 0 = Ok (ForeignArray [20; 30]) /\
  getitem_at_nowrap a 1
  = Throw (kernel_error "ListOffsetArray64"
             (failure
                "offsets[i] != offsets[i + 1] and offsets[i + 1] > len(content)"
                kSliceNone (Some 1))) /\
  getitem_at_nowrap a 2 = Ok (ForeignArray []).
Proof.
  intros a. split; [| split].
  - destruct (getitem_at_nowrap_checks a 0)
      as (_ & _ & _ & _ & Hvalid & _ & _).
    rewrite Hvalid; [reflexivity | | | |]; vm_compute; discriminate.
  - destruct (getitem_at_nowrap_checks a 1)
      as (_ & _ & _ & Hover & _ & _ & _).
    rewrite Hover; [reflexivity | | | |];
      vm_compute; try discriminate; reflexivity.
  - destruct (getitem_at_nowrap_checks a 2)
      as (_ & _ & _ & _ & _ & Hempty & _).
    rewrite Hempty; [reflexivity | reflexivity | vm_compute; discriminate].
Defined.

(** The three rejections on a 32-bit array. *)
Lemma argument_misuse_rejected_witness :
  let a := list_of int32_t [0; 2; 3] [1; 2; 3] in
  combinations a 0 false tt tt 1 0
  = Throw (invalid_argument "in combinations, 'n' must be at least 1") /\
  broadcast_tooffsets64 a (index_of_list [1; 3; 4])
  = Throw (invalid_argument
      "broadcast_tooffsets64 can only be used with offsets that start at 0") /\
  offsets_and_flattened a 0 0
  = Throw (invalid_argument "axis=0 not allowed for flatten").
Proof.
  intros a.
  destruct (argument_misuse_rejected a) as (Hcomb & Hbroad & Hflat).
  split; [apply Hcomb; reflexivity |].
  split; [apply Hbroad; right; vm_compute; discriminate |].
  apply Hflat. reflexivity.
Defined.

(** Four sublists against three parents in the non-local branch. *)
Lemma nonlocal_parents_length_check_witness :
  let a := list_of int64_t [0; 3; 3; 5; 6] [1; 2; 3; 4; 5; 6] in
  let parents := index_of_list [0; 0; 1] in
  (T_ a = int64_t /\ fst (branch_depth a) = false /\ 2 = snd (branch_depth a)
   /\ length_ (offsets_ a) - 1 <> length_ parents) /\
  reduce_next a tt 2 (index_of_list [0]) parents 2 false false
  = Throw (runtime_error "offsets_.length() - 1 != parents.length()") /\
  sort_next a 2 (index_of_list [0]) parents 2 true true false
  = Throw (runtime_error "offsets_.length() - 1 != parents.length()") /\
  argsort_next a 2 (index_of_list [0]) parents 2 true true false
  = Throw (runtime_error "offsets_.length() - 1 != parents.length()").
Proof.
  intros a parents.
  assert (Hne : length_ (offsets_ a) - 1 <> length_ parents)
    by (vm_compute; discriminate).
  split; [repeat split; exact Hne |].
  destruct (nonlocal_parents_length_check a tt 2 (index_of_list [0]) parents 2
              false true true false) as [Hthrow _];
    [reflexivity | reflexivity | reflexivity |].
  apply Hthrow. exact Hne.
Defined.

(** Unsigned 32-bit offsets that do not start at zero: the converted
    array has the offsets [0, 1, 1, 3, 4] over the four elements that the
    sublists span, and its sum is the sum of the original. *)
Lemma reduce_next_32bit_via_canonical_form_witness :
  let a := list_of uint32_t [2; 3; 3; 5; 6] [1; 2; 3; 4; 5; 6] in
  let c :=
    mkListOffsetArray int64_t None tt (mkIndex [0; 1; 1; 3; 4] 0 5)
                      (ForeignArray [3; 4; 5; 6]) in
  (T_ a = int32_t \/ T_ a = uint32_t) /\
  toListOffsetArray64 a true = Ok c /\
  reduce_next a tt 1 (index_of_list [0]) (index_of_list [0; 0; 0; 0]) 1
              false false
  = reduce_next_via_canonical_form a tt 1 (index_of_list [0])
      (index_of_list [0; 0; 0; 0]) 1 false false /\
  reduce_next a tt 1 (index_of_list [0]) (index_of_list [0; 0; 0; 0]) 1
              false false
  = reduce_next_64 c tt 1 (index_of_list [0]) (index_of_list [0; 0; 0; 0]) 1
                   false false.
Proof.
  intros a c.
  assert (HT : T_ a = int32_t \/ T_ a = uint32_t) by (right; reflexivity).
  split; [exact HT |].
  destruct (reduce_next_32bit_via_canonical_form a tt 1 (index_of_list [0])
              (index_of_list [0; 0; 0; 0]) 1 false false HT)
    as (Hsame & _ & Hform & Hreturns & _).
  assert (Hc : toListOffsetArray64 a true = Ok c).
  { apply (Hreturns [2; 3; 4; 5] (ForeignArray [3; 4; 5; 6]));
      [vm_compute; discriminate | split; reflexivity | reflexivity]. }
  split; [exact Hc |]. split; [exact Hsame |].
  destruct (Hform c Hc) as (_ & _ & _ & _ & _ & _ & _ & _ & _ & Hrun).
  exact Hrun.
Defined.

(** C6 as stated fails: with [start_at_zero] unset the [int64_t] offsets
    [3, 5] are returned as they are, so the result neither starts at zero nor
    has [out[1] = offsets[1] - offsets[0]]. *)
Lemma compact_offsets64_unset_flag_counterexample :
  let a := list_of int64_t [3; 5] [] in
  compact_offsets64 a false = Ok (offsets_ a) /\
  Index_getitem_at_nowrap (offsets_ a) 0 <> 0 /\
  Index_getitem_at_nowrap (offsets_ a) 1
  <> Index_getitem_at_nowrap (offsets_ a) 1
     - Index_getitem_at_nowrap (offsets_ a) 0.
Proof.
  intros a. split; [reflexivity |].
  split; vm_compute; discriminate.
Qed.

(** Compaction of the offsets [3, 5, 9], with the flag set and unset. *)
Lemma compact_offsets64_contract_witness :
  let a := list_of int64_t [3; 5; 9] [] in
  (1 <= length_ (offsets_ a) /\ (true = true \/ T_ a <> int64_t)) /\
  (exists out,
     compact_offsets64 a true = Ok out /\
     length_ out = length_ (offsets_ a) /\
     (forall i, 0 <= i < length_ (offsets_ a) ->
        Index_getitem_at_nowrap out i
        = Index_getitem_at_nowrap (offsets_ a) i
          - Index_getitem_at_nowrap (offsets_ a) 0) /\
     Index_getitem_at_nowrap out 0 = 0 /\
     (forall b again,
        T_ b = int64_t -> offsets_ b = out ->
        compact_offsets64 b again = Ok out) /\
     (T_ a = int64_t -> Index_getitem_at_nowrap (offsets_ a) 0 = 0 ->
      out = offsets_ a)) /\
  compact_offsets64 a false = Ok (offsets_ a).
Proof.
  intros a.
  assert (Hlen : 1 <= length_ (offsets_ a)) by (vm_compute; discriminate).
  split; [split; [exact Hlen | left; reflexivity] |]. split.
  - destruct (compact_offsets64_contract a true) as [Hcompact _].
    apply Hcompact; [exact Hlen | left; reflexivity].
  - destruct (compact_offsets64_contract a false) as [_ Hunset].
    apply Hunset; reflexivity.
Defined.

(** The non-local sum of [[1,2,3], [], [4,5], [6]] grouped by the parents
    [0, 0, 1, 1], with [keepdims]. *)
Lemma reduce_next_nonlocal_structure_witness :
  let a := list_of int64_t [0; 3; 3; 5; 6] [1; 2; 3; 4; 5; 6] in
  let parents := index_of_list [0; 0; 1; 1] in
  (T_ a = int64_t /\ fst (branch_depth a) = false /\
   2 = snd (branch_depth a) /\ length_ (offsets_ a) - 1 = length_ parents) /\
  reduce_next a tt 2 (index_of_list [0]) parents 2 false true
  = Ok (RegularArray None tt
          (ListArray int64_t None tt (mkIndex [0; 3] 0 2) (mkIndex [3; 5] 0 2)
             (ForeignArray [1; 2; 3; 10; 5]))
          1).
Proof.
  intros a parents.
  split; [repeat split |].
  apply (reduce_next_nonlocal_structure a tt 2 (index_of_list [0]) parents 2
           false true
           3 4 [0; 3; 3; 5; 6] [0; 3; 5; 1; 4; 2] [0; 3; 3; 1; 4; 2]
           [0; 1; 2; 3; 4; -1] [0; 3; 5; 1; 4] [1; 1] [0; 3] [3; 5]
           (ForeignArray [1; 4; 6; 2; 5; 3])
           (ForeignArray [1; 2; 3; 10; 5]));
    [reflexivity | reflexivity | reflexivity | reflexivity
    | split; reflexivity | split; reflexivity | split; reflexivity
    | reflexivity | reflexivity | split; reflexivity | split; reflexivity].
Defined.

(** The local sum of [[1,2,3], [], [4,5], [6]] under the parents
    [0, 0, 1, 1]. *)
Lemma reduce_next_local_structure_witness :
  let a := list_of int64_t [0; 3; 3; 5; 6] [1; 2; 3; 4; 5; 6] in
  let parents := index_of_list [0; 0; 1; 1] in
  (T_ a = int64_t /\ 1 <> snd (branch_depth a) /\ 0 <= 2 /\
   forall k, 0 <= k -> k + 1 < length_ parents ->
     Index_getitem_at_nowrap parents k
     <= Index_getitem_at_nowrap parents (k + 1)) /\
  exists outoffsets,
    reduce_next a tt 1 (index_of_list [0]) parents 2 false false
    = Ok (ListOffsetArray
            (mkListOffsetArray int64_t None tt outoffsets
                               (ForeignArray [6; 0; 9; 6]))) /\
    length_ outoffsets = 3 /\
    Index_getitem_at_nowrap outoffsets 1 - Index_getitem_at_nowrap outoffsets 0
    = 2.
Proof.
  intros a parents.
  assert (Hsorted : forall k, 0 <= k -> k + 1 < length_ parents ->
    Index_getitem_at_nowrap parents k
    <= Index_getitem_at_nowrap parents (k + 1)).
  { intros k Hk Hlt.
    assert (Hcases : k = 0 \/ k = 1 \/ k = 2)
      by (change (length_ parents) with 4 in Hlt; lia).
    destruct Hcases as [-> | [-> | ->]]; vm_compute; discriminate. }
  split.
  { split; [reflexivity |]. split; [vm_compute; discriminate |].
    split; [lia | exact Hsorted]. }
  destruct (reduce_next_local_structure a tt 1 (index_of_list [0]) parents 2
              false false
              (ForeignArray [1; 2; 3; 4; 5; 6]) (ForeignArray [6; 0; 9; 6]))
    as (outoffsets & Hrun & Hlen & Hdiff & _);
    [reflexivity | right; vm_compute; discriminate | lia | exact Hsorted
    | reflexivity | reflexivity |].
  exists outoffsets. split; [exact Hrun |]. split; [exact Hlen |].
  change 1 with (0 + 1) at 1. rewrite (Hdiff 0) by lia. reflexivity.
Defined.


(** * Evaluation of the further methods *)

Import Sample.

(** The last sublist through the index -1, and an index past the end. *)
Lemma getitem_at_wraps_and_bounds_witness :
  let a := list_of int64_t [0; 3; 3; 5; 6] [1; 2; 3; 4; 5; 6] in
  getitem_at a (-1) = Ok (ForeignArray [6]) /\
  getitem_at a (-1) = getitem_at a 3 /\
  getitem_at a 4
  = Throw (kernel_error "ListOffsetArray64"
             (failure "index out of range" kSliceNone (Some 4))).
Proof.
  intros a.
  destruct (getitem_at_wraps_and_bounds a (-1)) as (_ & Hwrap & _).
  destruct (getitem_at_wraps_and_bounds a 4) as (_ & _ & Hout).
  destruct Hwrap as [Hnowrap Hsame]; [cbn; lia |].
  split; [rewrite Hnowrap; reflexivity |].
  split; [exact Hsame |].
  apply Hout. right. vm_compute. discriminate.
Defined.

(** The slice [1:3] of four sublists and its second sublist. *)
Lemma getitem_range_nowrap_view_witness :
  let a := list_of int64_t [0; 3; 3; 5; 6] [1; 2; 3; 4; 5; 6] in
  3 + 1 <> 1 /\
  exists b,
    getitem_range_nowrap a 1 3 = Ok b /\
    length b = 2 /\
    getitem_at_nowrap b 1 = Ok (ForeignArray [4; 5]).
Proof.
  intros a. split; [discriminate |].
  destruct (getitem_range_nowrap_view a 1 3) as (_ & Hview).
  destruct Hview as (b & Hb & Hlen & _ & _ & _ & _ & Hitem);
    [discriminate |].
  exists b. split; [exact Hb |]. split; [exact Hlen |].
  apply Hitem. reflexivity.
Defined.

(** A slice of the slice [1:3]. *)
Lemma getitem_range_nowrap_twice_witness :
  let a := list_of int64_t [0; 3; 3; 5; 6] [1; 2; 3; 4; 5; 6] in
  let b := mkListOffsetArray int64_t None tt
             (mkIndex [0; 3; 3; 5; 6] 1 3) (ForeignArray [1; 2; 3; 4; 5; 6]) in
  (identities_ a = None /\ getitem_range_nowrap a 1 3 = Ok b) /\
  getitem_range_nowrap b 1 2 = getitem_range_nowrap a 2 3.
Proof.
  intros a b. split; [split; reflexivity |].
  apply (getitem_range_nowrap_twice a b 1 3 1 2); reflexivity.
Defined.

(** The canonical form of 32-bit offsets that start at 2. *)
Lemma toListOffsetArray64_idempotent_witness :
  let a := list_of int32_t [2; 3; 3; 5; 6] [1; 2; 3; 4; 5; 6] in
  let c := list_of int64_t [0; 1; 1; 3; 4] [3; 4; 5; 6] in
  toListOffsetArray64 a true = Ok c /\
  toListOffsetArray64 c true = Ok c /\
  toListOffsetArray64 c false = Ok c.
Proof.
  intros a c. split; [reflexivity |].
  apply (toListOffsetArray64_idempotent a c). reflexivity.
Defined.

(** Broadcasting four sublists to six, and to two. *)
Lemma broadcast_tooffsets64_shape_witness :
  let a := list_of int64_t [0; 3; 3; 5; 6] [1; 2; 3; 4; 5; 6] in
  broadcast_tooffsets64 a (index_of_list [0; 1; 2; 3; 4; 5; 6])
  = Throw (invalid_argument
             "cannot broadcast ListOffsetArray of length 4 to length 6") /\
  forall c,
    broadcast_tooffsets64 a (index_of_list [0; 3; 3]) = Ok c ->
    offsets_ c = index_of_list [0; 3; 3] /\ length c <= length a.
Proof.
  intros a. split.
  - destruct (broadcast_tooffsets64_shape a
                (index_of_list [0; 1; 2; 3; 4; 5; 6])) as (Hlong & _).
    rewrite Hlong; [reflexivity | | |]; vm_compute;
      try discriminate; reflexivity.
  - intros c Hc.
    destruct (broadcast_tooffsets64_shape a (index_of_list [0; 3; 3]))
      as (_ & Hshape).
    destruct (Hshape c Hc) as (_ & Hoffsets & _ & _ & Hlen & _).
    auto.
Defined.

(** Flattening a 32-bit list at axis 1. *)
Lemma offsets_and_flattened_next_axis_witness :
  let a := list_of int32_t [2; 3; 3; 5; 6] [1; 2; 3; 4; 5; 6] in
  (axis_wrap_if_negative (ListOffsetArray a) 1 = Ok (0 + 1) /\
   offsets_and_flattened a 1 0
   = Ok (index_of_list [0; 1; 1; 3; 4], ForeignArray [3; 4; 5; 6])) /\
  Index_getitem_at_nowrap (index_of_list [0; 1; 1; 3; 4]) 0 = 0 /\
  length_ (index_of_list [0; 1; 1; 3; 4]) = length_ (offsets_ a).
Proof.
  intros a. split; [split; reflexivity |].
  destruct (offsets_and_flattened_next_axis a 1 0
              (index_of_list [0; 1; 1; 3; 4]) (ForeignArray [3; 4; 5; 6]))
    as (Hzero & Hlen & _); [reflexivity | reflexivity |].
  auto.
Defined.

(** Flattening the same list at axis 2. *)
Lemma offsets_and_flattened_deeper_witness :
  let a := list_of int32_t [2; 3; 3; 5; 6] [1; 2; 3; 4; 5; 6] in
  (axis_wrap_if_negative (ListOffsetArray a) 2 = Ok 2 /\
   2 <> 0 /\ 2 <> 0 + 1 /\
   offsets_and_flattened a 2 0
   = Ok (Index_filled [] 0, ListOffsetArray a)) /\
  length_ (Index_filled [] 0) = 0.
Proof.
  intros a.
  split; [repeat split; discriminate |].
  destruct (offsets_and_flattened_deeper a 2 0 2
              (Index_filled [] 0) (ListOffsetArray a))
    as (Hempty & _);
    [reflexivity | discriminate | discriminate | reflexivity |].
  exact Hempty.
Defined.

(** The pairs of every sublist of [[1,2,3], [], [4,5], [6]]. *)
Lemma combinations_keeps_length_witness :
  let a := list_of int64_t [0; 3; 3; 5; 6] [1; 2; 3; 4; 5; 6] in
  let pairs :=
    ListOffsetArray
      (mkListOffsetArray int64_t None tt (mkIndex [0; 3; 3; 4; 4] 0 5)
         (RecordArray None tt
            [ForeignArray [1; 1; 2; 4]; ForeignArray [2; 3; 3; 5]] tt)) in
  (axis_wrap_if_negative (ListOffsetArray a) 1 = Ok 1 /\ 1 <> 0 /\
   combinations a 2 false tt tt 1 0 = Ok pairs) /\
  exists out, pairs = ListOffsetArray out /\ length out = length a.
Proof.
  intros a pairs.
  split; [repeat split; discriminate |].
  destruct (combinations_keeps_length a 2 false tt tt 1 0 1 pairs)
    as (_ & out & Hout & _ & Hlen & _);
    [reflexivity | discriminate | reflexivity |].
  exists out. auto.
Defined.

(** Sorting inside the sublists, with [keepdims]. *)
Lemma sort_next_keeps_offsets_witness :
  let a := list_of int64_t [0; 3; 3; 5; 6] [3; 1; 2; 9; 5; 4] in
  let sorted :=
    RegularArray None tt
      (ListOffsetArray
         (mkListOffsetArray int64_t None tt (offsets_ a)
                            (ForeignArray [1; 2; 3; 5; 9; 4]))) 4 in
  (T_ a = int64_t /\
   sort_next a 1 (index_of_list [0]) (index_of_list [0; 0; 0; 0]) 1
             true true true = Ok sorted) /\
  exists outcontent,
    sorted = RegularArray None tt
               (ListOffsetArray
                  (mkListOffsetArray int64_t None tt (offsets_ a) outcontent))
               (length a).
Proof.
  intros a sorted. split; [split; reflexivity |].
  apply (sort_next_keeps_offsets a 1 (index_of_list [0])
           (index_of_list [0; 0; 0; 0]) 1 true true true sorted);
    [reflexivity | left; reflexivity].
Defined.

(** Argsorting inside the sublists of a 32-bit list. *)
Lemma sort_next_32bit_keeps_length_witness :
  let a := list_of uint32_t [2; 3; 3; 5; 6] [0; 0; 3; 9; 5; 4] in
  let r :=
    ListOffsetArray
      (mkListOffsetArray int64_t None tt (mkIndex [0; 1; 1; 3; 4] 0 5)
                         (ForeignArray [0; 1; 0; 0])) in
  ((T_ a = int32_t \/ T_ a = uint32_t) /\
   argsort_next a 1 (index_of_list [0]) (index_of_list [0; 0; 0; 0]) 1
                true true false = Ok r) /\
  exists canonical outcontent,
    toListOffsetArray64 a true = Ok canonical /\
    r = keepdims_wrap false
          (mkListOffsetArray int64_t None tt (offsets_ canonical) outcontent) /\
    length canonical = length a.
Proof.
  intros a r. split; [split; [right |]; reflexivity |].
  destruct (sort_next_32bit_keeps_length a 1 (index_of_list [0])
              (index_of_list [0; 0; 0; 0]) 1 true true false r)
    as (canonical & outcontent & Hcanon & Hr & _ & Hlen);
    [right; reflexivity | right; reflexivity |].
  exists canonical, outcontent. auto.
Defined.

(** The local sum of [[1,2,3], [], [4,5], [6]]. *)
Lemma reduce_next_result_shape_witness :
  let a := list_of int64_t [0; 3; 3; 5; 6] [1; 2; 3; 4; 5; 6] in
  let r :=
    ListOffsetArray
      (mkListOffsetArray int64_t None tt (mkIndex [0; 4] 0 2)
                         (ForeignArray [6; 0; 9; 6])) in
  (T_ a = int64_t /\
   reduce_next a tt 1 (index_of_list [0]) (index_of_list [0; 0; 0; 0]) 1
               false true = Ok r) /\
  exists outoffsets outcontent,
    r = ListOffsetArray
          (mkListOffsetArray int64_t None tt (mkIndex outoffsets 0 (1 + 1))
                             outcontent).
Proof.
  intros a r. split; [split; reflexivity |].
  destruct (reduce_next_result_shape a tt 1 (index_of_list [0])
              (index_of_list [0; 0; 0; 0]) 1 false true r)
    as [(_ & Haxis & _) | (_ & _ & Hshape)];
    [reflexivity | reflexivity | vm_compute in Haxis; discriminate |].
  exact Hshape.
Defined.

(** The first two elements of every sublist. *)
Lemma getitem_next_range_keeps_length_witness :
  let a := list_of int64_t [0; 3; 3; 5; 6] [1; 2; 3; 4; 5; 6] in
  let r :=
    ListOffsetArray
      (mkListOffsetArray int64_t None tt (mkIndex [0; 2; 2; 4; 5] 0 5)
                         (ForeignArray [1; 2; 4; 5; 6])) in
  getitem_next_range a (mkSliceRange 0 2 Slice_none) [] (index_of_list [])
  = Ok r /\
  getitem_next_range a (mkSliceRange 0 2 1) [] (index_of_list []) = Ok r /\
  exists out, r = ListOffsetArray out /\ length out = length a.
Proof.
  intros a r.
  destruct (getitem_next_range_keeps_length (ST := slice_trait) a 0 2 []
              (index_of_list []))
    as (Hstep & Hshape).
  assert (Hrun : getitem_next_range a (mkSliceRange 0 2 1) []
                   (index_of_list []) = Ok r) by reflexivity.
  split; [rewrite Hstep; exact Hrun |]. split; [exact Hrun |].
  destruct (Hshape 1 r Hrun) as (out & Hout & _ & Hlen & _).
  exists out. auto.
Defined.

(** The axis -1 of a list over a flat array wraps to 1, the next axis, and
    [localindex] descends all the same. *)
Lemma localindex_negative_axis_descends_witness :
  let a := list_of int64_t [0; 3; 3; 5; 6] [1; 2; 3; 4; 5; 6] in
  (axis_wrap_if_negative (ListOffsetArray a) (-1) = Ok (0 + 1) /\
   -1 < 0 /\ 0 <= 0) /\
  localindex a (-1) 0
  = Ok (ListOffsetArray
          (mkListOffsetArray int64_t None tt (offsets_ a)
                             (ForeignArray [0; 1; 2; 3; 4; 5]))).
Proof.
  intros a. split; [repeat split; discriminate |].
  rewrite (localindex_negative_axis_descends a (-1) 0 (0 + 1));
    [reflexivity | reflexivity | reflexivity | discriminate].
Defined.

(** Two list layers over a flat array of depth 1. *)
Lemma list_layers_add_to_depths_witness :
  let f := Forms.ListOffsetForm false None Forms.i64
             (Forms.ListOffsetForm false (Some "string"%string) Forms.i32
                (Forms.OtherForm 1)) in
  Forms.purelist_depth f = 3 /\
  Forms.minmax_depth f = (3, 3) /\
  Forms.branch_depth f = (false, 3).
Proof.
  intros f.
  destruct (list_layers_add_to_depths f) as (Hpure & _ & _ & Hagree).
  destruct Hagree as [Hminmax Hbranch]; [reflexivity | reflexivity |].
  rewrite Hminmax, Hbranch, Hpure. repeat split.
Defined.

(** The comparison of the sample forms is reflexive and symmetric. *)
Lemma equal_reflexive_symmetric_witness :
  let f := Forms.ListOffsetForm false (Some "string"%string) Forms.i64
             (Forms.OtherForm 1) in
  let g := Forms.ListOffsetForm true None Forms.i64 (Forms.OtherForm 1) in
  Forms.equal f f true true = true /\
  Forms.equal f g true true = Forms.equal g f true true.
Proof.
  intros f g.
  destruct (equal_reflexive_symmetric true true) as [Hrefl Hsym].
  - intros [v |]; cbn; [apply String.eqb_refl | reflexivity].
  - intros [u |] [v |]; cbn; try reflexivity. apply String.eqb_sym.
  - intros x. cbn. apply Z.eqb_refl.
  - intros x y. cbn. apply Z.eqb_sym.
  - reflexivity.
  - split; [apply Hrefl | apply Hsym].
Defined.

(** Two forms that differ in identities and parameters only. *)
Lemma equal_forms_same_depth_witness :
  let f := Forms.ListOffsetForm false (Some "string"%string) Forms.i64
             (Forms.OtherForm 1) in
  let g := Forms.ListOffsetForm true None Forms.i64 (Forms.OtherForm 1) in
  Forms.equal f g false false = true /\
  Forms.nesting f = Forms.nesting g /\
  Forms.purelist_depth f = Forms.purelist_depth g.
Proof.
  intros f g. split; [reflexivity |].
  destruct (equal_forms_same_depth false false f g) as [Hn Hd];
    [reflexivity | reflexivity |].
  split; [exact Hn |]. apply Hd.
  intros x y Hxy. cbn in *. apply Z.eqb_eq. exact Hxy.
Defined.

(** [int32] against [uint32] and against itself. *)
Lemma tostring_part_tells_dtypes_apart_witness :
  let t1 := Primitive.mkPrimitiveType [] Primitive.int32 in
  let t2 := Primitive.mkPrimitiveType [] Primitive.uint32 in
  Primitive.tostring_part t1 "" "" "" = Some "int32"%string /\
  Primitive.tostring_part t1 "" "" "" <> Primitive.tostring_part t2 "" "" "" /\
  Primitive.equal t1 (Primitive.Primitive t2) false = false.
Proof.
  intros t1 t2.
  destruct (tostring_part_tells_dtypes_apart t1 t2 "" "" "")
    as (_ & Hsame & Hequal);
    [reflexivity | reflexivity | discriminate | discriminate |].
  split; [reflexivity |]. split.
  - intros H. apply Hsame in H. discriminate.
  - apply Bool.not_true_is_false. intros Heq.
    apply (proj2 Hequal) in Heq. discriminate Heq.
Defined.
